(** * CoinMarketCap listings viewer: a shallow embedding of [crypto_tree.py]

    The development follows the layout of the source file: the helpers
    ([fetch_listings], [fmt_money], [fmt_price], [fmt_pct], [fmt_dt]) come
    first, then the state of the [App] window with its methods
    ([refresh], [apply_filter], [sort_by], [apply_auto_refresh]).

    Conventions.
    - A Python [str] is a Rocq [string]; [str.lower] and [str.strip] are the
      ASCII instances of the Python methods.
    - A number of the decoded JSON payload is a Python [int] (a [Z]) or a
      finite binary64 [float] (JSON has neither NaN nor infinities), kept as
      sign, mantissa and binary exponent; its exact value is a rational, and
      comparisons are exact, as they are in Python between [int] and
      [float]. Division and formatting round as binary64 does.
    - A row has the field types of the listing API: numbers under the
      numeric keys, strings under the text keys, [None] for a missing value.
    - [None] is [option]'s [None]. *)

From Stdlib Require Import ZArith QArith String Ascii List Bool Lia
  Permutation Sorted DecimalString.
From Stdlib Require OrderedTypeEx.
From stdpp Require Import base option list gmap.

Import ListNotations.
Local Open Scope Z_scope.

(* ===================================================================== *)
(** ** Python strings *)
(* ===================================================================== *)

Module PyStr.

Definition code (c : ascii) : N := N_of_ascii c.

(** [str.lower] on one ASCII character: [A]..[Z] move down by 32. *)
Definition lower_char (c : ascii) : ascii :=
  if ((65 <=? code c) && (code c <=? 90))%N
  then ascii_of_N (code c + 32) else c.

Fixpoint lower (s : string) : string :=
  match s with
  | EmptyString => EmptyString
  | String c s' => String (lower_char c) (lower s')
  end.

(** [str.isspace] on ASCII: TAB, LF, VT, FF, CR, FS, GS, RS, US, SPACE. *)
Definition is_space (c : ascii) : bool :=
  (((9 <=? code c) && (code c <=? 13))
   || ((28 <=? code c) && (code c <=? 32)))%N.

Fixpoint lstrip (s : string) : string :=
  match s with
  | EmptyString => EmptyString
  | String c s' => if is_space c then lstrip s' else s
  end.

(** Strips the right end: a space is dropped when everything after it is
    dropped too. *)
Fixpoint rstrip (s : string) : string :=
  match s with
  | EmptyString => EmptyString
  | String c s' =>
      match rstrip s' with
      | EmptyString => if is_space c then EmptyString else String c EmptyString
      | t => String c t
      end
  end.

Definition strip (s : string) : string := rstrip (lstrip s).

(** [needle in hay]. *)
Fixpoint contains (needle hay : string) : bool :=
  String.prefix needle hay
  || match hay with
     | EmptyString => false
     | String _ hay' => contains needle hay'
     end.

(** [s.replace(old, new)] for a one-character [old]. *)
Fixpoint replace_char (old : ascii) (new : string) (s : string) : string :=
  match s with
  | EmptyString => EmptyString
  | String c s' =>
      if Ascii.eqb c old then String.append new (replace_char old new s')
      else String c (replace_char old new s')
  end.

(** Truth value of a string: empty is false. *)
Definition truthy (s : string) : bool :=
  match s with EmptyString => false | _ => true end.

(** [str(x)] inside an f-string for a field that is a string or [None]. *)
Definition str_of (x : option string) : string :=
  match x with Some s => s | None => "None"%string end.

(** Python compares strings by code point, left to right. *)
Definition ltb (a b : string) : bool := String.ltb a b.

End PyStr.

(* ===================================================================== *)
(** ** Python numbers *)
(* ===================================================================== *)

Module PyNum.

(** A finite float [(-1)^neg * mant * 2^expo]. *)
Record dyadic := Dyadic { neg : bool; mant : N; expo : Z }.

Inductive number :=
| PyInt (z : Z)
| PyFloat (f : dyadic).

Definition dvalue (f : dyadic) : Q :=
  ((if neg f then inject_Z (-1) else inject_Z 1)
   * inject_Z (Z.of_N (mant f)) * Qpower (inject_Z 2) (expo f))%Q.

Definition value (x : number) : Q :=
  match x with
  | PyInt z => inject_Z z
  | PyFloat f => dvalue f
  end.

(** [a < b], [a >= b], [a == b] on numbers: exact in Python. *)
Definition ltb (a b : number) : bool :=
  match (value a ?= value b)%Q with Lt => true | _ => false end.
Definition geb (a b : number) : bool := negb (ltb a b).
Definition eqb (a b : number) : bool := Qeq_bool (value a) (value b).

(** Nearest integer to [n / d], ties to even ([0 <= n], [0 < d]). *)
Definition round_half_even (n d : Z) : Z :=
  let q := n / d in
  match (2 * (n mod d) ?= d) with
  | Lt => q
  | Gt => q + 1
  | Eq => if Z.even q then q else q + 1
  end.

(** [floor (log2 (a / b))] for [0 < a], [0 < b]. *)
Definition ilog2_ratio (a b : Z) : Z :=
  let k := Z.log2 a - Z.log2 b in
  if (b * 2 ^ Z.max 0 k <=? a * 2 ^ Z.max 0 (- k)) then k else k - 1.

(** The binary64 nearest to [a / b] ([0 <= a], [0 < b]), ties to even:
    53 bits of mantissa, least exponent -1074; [None] when the result is
    out of range (2^1024 or more). *)
Definition round_binary64 (a b : Z) : option (N * Z) :=
  if a =? 0 then Some (0%N, 0)
  else
    let e := Z.max (ilog2_ratio a b - 52) (- 1074) in
    let m := round_half_even (a * 2 ^ Z.max 0 (- e)) (b * 2 ^ Z.max 0 e) in
    if (2 ^ (1024 + 1074) <=? m * 2 ^ (e + 1074)) then None
    else Some (Z.to_N m, e).

Definition nearest_float (s : bool) (a b : Z) : option dyadic :=
  match round_binary64 a b with
  | Some (m, e) => Some (Dyadic s m e)
  | None => None
  end.

(** [float(z)]; [None] is [OverflowError]. *)
Definition float_of_int (z : Z) : option dyadic :=
  nearest_float (z <? 0) (Z.abs z) 1.

(** [a / b] on two ints with [b > 0]: the correctly rounded quotient;
    [None] is [OverflowError]. *)
Definition int_true_div (a b : Z) : option dyadic :=
  nearest_float (a <? 0) (Z.abs a) b.

(** [f / c] for a float [f] and an int [0 < c < 2^53] (which converts to
    float exactly): the IEEE quotient; [None] stands for an infinite
    result. *)
Definition float_div_int (f : dyadic) (c : Z) : option dyadic :=
  nearest_float (neg f)
    (Z.of_N (mant f) * 2 ^ Z.max 0 (expo f))
    (c * 2 ^ Z.max 0 (- expo f)).

(** The float literal [a / b], for a decimal [a / b] with [0 <= a] and
    [b] a power of ten; [neg] puts a minus sign in front. *)
Definition float_literal (neg : bool) (a b : Z) : option number :=
  option_map PyFloat (nearest_float neg a b).

(** *** Format specifications [,.df] and [.df] *)

Definition digits_of (z : Z) : string :=
  NilZero.string_of_uint (N.to_uint (Z.to_N z)).

Fixpoint zeros (n : nat) : string :=
  match n with O => EmptyString | S n' => String "0" (zeros n') end.

(** Left-pads with zeros up to width [w]. *)
Definition pad_left (w : nat) (s : string) : string :=
  String.append (zeros (w - String.length s)) s.

(** Thousands separators: walks the digits with the number of digits
    that remain to the right. *)
Fixpoint group_from (s : string) (remaining : nat) : string :=
  match s with
  | EmptyString => EmptyString
  | String c s' =>
      let r := Nat.pred remaining in
      if ((0 <? r)%nat && (r mod 3 =? 0)%nat)
      then String c (String "," (group_from s' r))
      else String c (group_from s' r)
  end.

Definition group_thousands (s : string) : string :=
  group_from s (String.length s).

(** [format(f, ",.df")] when [comma], else [format(f, ".df")]: the exact
    value rounded to [d] decimals, ties to even; the sign is the float's
    sign bit. *)
Definition format_f (comma : bool) (d : nat) (f : dyadic) : string :=
  let scale := 10 ^ Z.of_nat d in
  let n := round_half_even
             (Z.of_N (mant f) * 2 ^ Z.max 0 (expo f) * scale)
             (2 ^ Z.max 0 (- expo f)) in
  let ip := digits_of (n / scale) in
  let ip := if comma then group_thousands ip else ip in
  let body :=
    match d with
    | O => ip
    | _ => String.append ip
             (String "." (pad_left d (digits_of (n mod scale))))
    end in
  if neg f then String "-" body else body.

Definition format_inf (s : bool) : string :=
  if s then "-inf"%string else "inf"%string.

End PyNum.

(* ===================================================================== *)
(** ** Formatters *)
(* ===================================================================== *)

Module Fmt.
Import PyNum.
Local Open Scope string_scope.

Definition dash : string := "-".

(** [f"${x/c:,.2f}<suffix>"]: [None] when the expression raises. *)
Definition money_scaled (x : number) (c : Z) (suffix : string)
  : option string :=
  match x with
  | PyInt z =>
      match int_true_div z c with
      | Some q => Some (String.append "$" (String.append (format_f true 2 q) suffix))
      | None => None
      end
  | PyFloat f =>
      match float_div_int f c with
      | Some q => Some (String.append "$" (String.append (format_f true 2 q) suffix))
      | None => Some (String.append "$" (String.append (format_inf (neg f)) suffix))
      end
  end.

(** [f"{x:<spec>}"] for the specs [,.df] and [.df]: an int is converted
    to float first; [None] when that raises. *)
Definition format_number (comma : bool) (d : nat) (x : number)
  : option string :=
  match x with
  | PyInt z =>
      match float_of_int z with
      | Some f => Some (format_f comma d f)
      | None => None
      end
  | PyFloat f => Some (format_f comma d f)
  end.

Definition or_dash (r : option string) : string :=
  match r with Some s => s | None => dash end.

Definition fmt_money (x : option number) : string :=
  match x with
  | None => dash
  | Some x =>
      or_dash
        (if geb x (PyInt 1000000000000) then money_scaled x 1000000000000 "T"
         else if geb x (PyInt 1000000000) then money_scaled x 1000000000 "B"
         else if geb x (PyInt 1000000) then money_scaled x 1000000 "M"
         else if geb x (PyInt 1000) then money_scaled x 1000 "K"
         else option_map (String.append "$") (format_number true 2 x))
  end.

Definition fmt_price (x : option number) : string :=
  match x with
  | None => dash
  | Some x =>
      or_dash
        (option_map (String.append "$")
           (if ltb x (PyInt 1) then format_number true 8 x
            else format_number true 2 x))
  end.

(** Formatting [None] with a non-empty format spec raises [TypeError]. *)
Definition fmt_pct (x : option number) : string :=
  match x with
  | None => dash
  | Some x =>
      or_dash (option_map (fun s => String.append s "%") (format_number false 2 x))
  end.

Section Timestamp.
(** [datetime.fromisoformat(s).strftime("%Y-%m-%d %H:%M:%S")], with
    [None] when [fromisoformat] raises: the standard library's parser. *)
Variable isoformat_render : string -> option string.

Definition fmt_dt (iso : option string) : string :=
  match iso with
  | None => dash
  | Some s =>
      if negb (PyStr.truthy s) then dash
      else
        match isoformat_render (PyStr.replace_char "Z" "+00:00" s) with
        | Some out => out
        | None => if PyStr.truthy s then s else dash
        end
  end.
End Timestamp.

End Fmt.

(* ===================================================================== *)
(** ** The decoded payload and [fetch_listings] *)
(* ===================================================================== *)

Module Fetch.
Import PyNum.
Local Open Scope string_scope.

(** What [r.json()] returns. A [JDict] lists the items of the dict. *)
#[warnings="-register-all"]
Inductive json :=
| JNull
| JBool (b : bool)
| JNum (x : number)
| JStr (s : string)
| JList (l : list json)
| JDict (items : list (string * json)).

Fixpoint assoc (k : string) (items : list (string * json)) : option json :=
  match items with
  | [] => None
  | (k', v) :: rest => if String.eqb k k' then Some v else assoc k rest
  end.

Definition type_name (j : json) : string :=
  match j with
  | JNull => "NoneType"
  | JBool _ => "bool"
  | JNum (PyInt _) => "int"
  | JNum (PyFloat _) => "float"
  | JStr _ => "str"
  | JList _ => "list"
  | JDict _ => "dict"
  end.

(** The response object of [requests]. [http_error] is the message of the
    [HTTPError] that [raise_for_status] raises when the status is an error
    status; [body] is what [r.json()] returns, or the message of the
    exception it raises. *)
Record response := Response {
  http_error : option string;
  text : string;
  body : string + json
}.

(** What [requests.get] does: it raises (an [HTTPError] when [is_http],
    another [Exception] otherwise) or returns a response. *)
Inductive get_result :=
| GetRaises (is_http : bool) (msg : string)
| GetReturns (r : response).

Inductive exn :=
| HTTPError (msg : string)
| OtherError (msg : string).

(** A [messagebox.showerror(title, message)] call. *)
Record dialog := Dialog { title : string; message : string }.

(** Result of a call: a returned value or an exception that escapes. *)
Inductive outcome (A : Type) :=
| Returned (v : A)
| Escaped (e : exn).
Arguments Returned {A} v.
Arguments Escaped {A} e.

Definition nl2 : string :=
  String (ascii_of_N 10) (String (ascii_of_N 10) EmptyString).

(** The body of the [try]: [Some r] in the first component when the name
    [r] is bound at the point where the exception is raised. *)
Definition try_body (w : get_result) : option response * (exn + json) :=
  match w with
  | GetRaises true msg => (None, inl (HTTPError msg))
  | GetRaises false msg => (None, inl (OtherError msg))
  | GetReturns r =>
      match http_error r with
      | Some msg => (Some r, inl (HTTPError msg))
      | None =>
          match body r with
          | inl msg => (Some r, inl (OtherError msg))
          | inr (JDict items) =>
              (Some r, inr (match assoc "data" items with
                            | Some v => v
                            | None => JList []
                            end))
          | inr j =>
              (Some r, inl (OtherError
                 (String.append "'" (String.append (type_name j)
                    "' object has no attribute 'get'"))))
          end
      end
  end.

(** [fetch_listings]: the value it hands to its caller and the dialogs it
    shows. *)
Definition fetch_listings (w : get_result) : outcome json * list dialog :=
  match try_body w with
  | (_, inr v) => (Returned v, [])
  | (r, inl (HTTPError msg)) =>
      (Returned (JList []),
       [Dialog "HTTP Error"
          (String.append msg
             (String.append nl2
                (match r with Some r => text r | None => "" end)))])
  | (_, inl (OtherError msg)) =>
      (Returned (JList []), [Dialog "Error" msg])
  end.

(** The failure modes of one fetch. *)
Inductive failure : get_result -> Prop :=
| network_error b msg : failure (GetRaises b msg)
| http_status r msg : http_error r = Some msg -> failure (GetReturns r)
| malformed_payload r msg :
    http_error r = None -> body r = inl msg -> failure (GetReturns r)
| payload_not_object r j :
    http_error r = None -> body r = inr j ->
    (forall items, j <> JDict items) -> failure (GetReturns r)
| missing_key r items :
    http_error r = None -> body r = inr (JDict items) ->
    assoc "data" items = None -> failure (GetReturns r).


End Fetch.

(* ===================================================================== *)
(** ** [list.sort(key=..., reverse=...)] *)
(* ===================================================================== *)

(** [list.sort] is a stable sort that only asks [<] of the keys. On keys
    that [<] orders totally there is one stable arrangement, which stable
    insertion produces. With [reverse=True] the list is reversed, sorted and
    reversed again, which keeps equal keys in their original order. A
    comparison that raises makes the sort raise ([None]). *)
Module PySort.
Section ListSort.
Context {A K : Type} (key : A -> K) (lt : K -> K -> option bool).

Fixpoint insert (x : A) (l : list A) : option (list A) :=
  match l with
  | [] => Some [x]
  | y :: l' =>
      match lt (key y) (key x) with
      | None => None
      | Some true => option_map (cons y) (insert x l')
      | Some false => Some (x :: l)
      end
  end.

Fixpoint sorted_of (l : list A) : option (list A) :=
  match l with
  | [] => Some []
  | x :: l' =>
      match sorted_of l' with
      | Some s => insert x s
      | None => None
      end
  end.

Definition list_sort (reverse : bool) (l : list A) : option (list A) :=
  if reverse then option_map (@rev A) (sorted_of (rev l))
  else sorted_of l.
End ListSort.

(** The same sort for a comparison that never raises. *)
Section Total.
Context {A : Type} (ltb : A -> A -> bool).

Fixpoint insert_total (x : A) (l : list A) : list A :=
  match l with
  | [] => [x]
  | y :: l' => if ltb y x then y :: insert_total x l' else x :: l
  end.

Definition sort_total (l : list A) : list A :=
  List.fold_right insert_total [] l.

Definition list_sort_total (reverse : bool) (l : list A) : list A :=
  if reverse then rev (sort_total (rev l)) else sort_total l.
End Total.
End PySort.

(* ===================================================================== *)
(** ** The [App] window *)
(* ===================================================================== *)

Module App.
Import PyNum.
Local Open Scope string_scope.

(** The keys of a row dict, which are also the ids of the tree columns. *)
Inductive column :=
| Rank | Symbol | Name | Price | Pct24h | Pct7d | Mcap | Vol24h | Updated.

Definition column_eqb (a b : column) : bool :=
  match a, b with
  | Rank, Rank | Symbol, Symbol | Name, Name | Price, Price
  | Pct24h, Pct24h | Pct7d, Pct7d | Mcap, Mcap | Vol24h, Vol24h
  | Updated, Updated => true
  | _, _ => false
  end.

(** The dict that [refresh] builds for one coin. *)
Record row := Row {
  rank : option Z;
  symbol : option string;
  name : option string;
  price : option number;
  pct24h : option number;
  pct7d : option number;
  mcap : option number;
  vol24h : option number;
  updated : option string
}.

(** A value stored under a key of a row. *)
Inductive cell :=
| CNone
| CNum (x : number)
| CStr (s : string).

Definition of_int (x : option Z) : cell :=
  match x with Some z => CNum (PyInt z) | None => CNone end.
Definition of_num (x : option number) : cell :=
  match x with Some n => CNum n | None => CNone end.
Definition of_str (x : option string) : cell :=
  match x with Some s => CStr s | None => CNone end.

(** [r[col]] *)
Definition get (r : row) (col : column) : cell :=
  match col with
  | Rank => of_int (rank r)
  | Symbol => of_str (symbol r)
  | Name => of_str (name r)
  | Price => of_num (price r)
  | Pct24h => of_num (pct24h r)
  | Pct7d => of_num (pct7d r)
  | Mcap => of_num (mcap r)
  | Vol24h => of_num (vol24h r)
  | Updated => of_str (updated r)
  end.

Definition is_none (c : cell) : bool :=
  match c with CNone => true | _ => false end.

(** [a == b] on cells. *)
Definition cell_eq (a b : cell) : bool :=
  match a, b with
  | CNone, CNone => true
  | CNum x, CNum y => PyNum.eqb x y
  | CStr s, CStr t => String.eqb s t
  | _, _ => false
  end.

(** [a < b] on cells; [None] is [TypeError]. *)
Definition cell_lt (a b : cell) : option bool :=
  match a, b with
  | CNum x, CNum y => Some (PyNum.ltb x y)
  | CStr s, CStr t => Some (PyStr.ltb s t)
  | _, _ => None
  end.

(** [False < True] *)
Definition bool_lt (a b : bool) : bool := negb a && b.

(** The sort key [(r[col] is None, r[col])]. *)
Definition sort_key (col : column) (r : row) : bool * cell :=
  (is_none (get r col), get r col).

(** [a < b] on two such tuples: the first position where they differ
    decides; tuples equal at both positions are not less. *)
Definition key_lt (a b : bool * cell) : option bool :=
  if negb (Bool.eqb (fst a) (fst b)) then Some (bool_lt (fst a) (fst b))
  else if negb (cell_eq (snd a) (snd b)) then cell_lt (snd a) (snd b)
  else Some false.


(** [a < b] on the sort keys of two rows, when it does not raise. *)
Definition row_ltb (col : column) (a b : row) : bool :=
  match key_lt (sort_key col a) (sort_key col b) with
  | Some t => t
  | None => false
  end.

(** The order of the sort keys, read off the cells: a value is below
    [None]; two values compare as numbers or as strings. *)
Definition cell_ltb (c d : cell) : bool :=
  match c, d with
  | CNone, _ => false
  | _, CNone => true
  | CNum x, CNum y => negb (PyNum.eqb x y) && PyNum.ltb x y
  | CStr s, CStr t => negb (String.eqb s t) && PyStr.ltb s t
  | _, _ => false
  end.

(** Under one column the values that are not [None] have one type. *)
Definition same_type (c d : cell) : Prop :=
  match c, d with
  | CNum _, CStr _ | CStr _, CNum _ => False
  | _, _ => True
  end.

(** [r[col] is None] *)
Definition null_at (col : column) (r : row) : bool := is_none (get r col).


(** [f"{row['symbol']} {row['name']}"] *)
Definition haystack (r : row) : string :=
  String.append (PyStr.str_of (symbol r))
    (String.append " " (PyStr.str_of (name r))).

(** [query] is the stripped, lowered text of the search box. *)
Definition matches (query : string) (r : row) : bool :=
  if negb (PyStr.truthy query) then true
  else
    let hay := PyStr.lower (haystack r) in
    PyStr.contains query hay.

Definition query_of (search : string) : string :=
  PyStr.lower (PyStr.strip search).

Definition sort_rows (col : column) (desc : bool) (l : list row)
  : option (list row) :=
  PySort.list_sort (sort_key col) key_lt desc l.

(** The rows that [apply_filter] shows, in order: filter, then sort. *)
Definition visible (search : string) (sort : column * bool)
    (rows : list row) : option (list row) :=
  sort_rows (fst sort) (snd sort)
    (List.filter (matches (query_of search)) rows).

(** The tag of a tree item. *)
Definition row_tag (r : row) : string :=
  match pct24h r with
  | None => "neu"
  | Some x => if PyNum.geb x (PyInt 0) then "pos" else "neg"
  end.

Definition str_of_int (z : Z) : string :=
  if (z <? 0)%Z then String "-" (digits_of (- z)) else digits_of z.

(** An item of the tree: the displayed values and its tag. *)
Record item := Item { values : list string; tags : string }.

(** The state of the window. [heap] holds the list objects; [rows_raw]
    names one of them. [timers] is Tk's table of pending [after]
    callbacks: the id of each with the delay of the [_tick] it runs. *)
Record app := MkApp {
  search_var : string;
  heap : gmap nat (list row);
  rows_raw : nat;
  current_sort : column * bool;
  tree : list item;
  after_id : option nat;
  timers : gmap nat Z;
  next_after : nat;
  dialogs : list Fetch.dialog
}.

Definition with_search_var (t : string) (s : app) : app :=
  MkApp t (heap s) (rows_raw s) (current_sort s) (tree s)
    (after_id s) (timers s) (next_after s) (dialogs s).
Definition with_heap (h : gmap nat (list row)) (s : app) : app :=
  MkApp (search_var s) h (rows_raw s) (current_sort s) (tree s)
    (after_id s) (timers s) (next_after s) (dialogs s).
Definition with_rows_raw (l : nat) (s : app) : app :=
  MkApp (search_var s) (heap s) l (current_sort s) (tree s)
    (after_id s) (timers s) (next_after s) (dialogs s).
Definition with_current_sort (c : column * bool) (s : app) : app :=
  MkApp (search_var s) (heap s) (rows_raw s) c (tree s)
    (after_id s) (timers s) (next_after s) (dialogs s).
Definition with_tree (t : list item) (s : app) : app :=
  MkApp (search_var s) (heap s) (rows_raw s) (current_sort s) t
    (after_id s) (timers s) (next_after s) (dialogs s).
Definition with_after_id (a : option nat) (s : app) : app :=
  MkApp (search_var s) (heap s) (rows_raw s) (current_sort s) (tree s)
    a (timers s) (next_after s) (dialogs s).
Definition with_timers (t : gmap nat Z) (n : nat) (s : app) : app :=
  MkApp (search_var s) (heap s) (rows_raw s) (current_sort s) (tree s)
    (after_id s) t n (dialogs s).
Definition show (d : list Fetch.dialog) (s : app) : app :=
  MkApp (search_var s) (heap s) (rows_raw s) (current_sort s) (tree s)
    (after_id s) (timers s) (next_after s) (dialogs s ++ d)%list.

(** A method returns normally or lets an exception escape; either way
    the state it leaves is known. *)
Inductive res :=
| Ok (s : app)
| Exn (s : app).

Definition bind (r : res) (k : app -> res) : res :=
  match r with Ok s => k s | Exn s => Exn s end.

Definition state_of (r : res) : app :=
  match r with Ok s => s | Exn s => s end.

(** The list object behind a name. *)
Definition deref (h : gmap nat (list row)) (l : nat) : list row :=
  default [] (h !! l).

(** A new list object. *)
Definition alloc (v : list row) (h : gmap nat (list row))
  : nat * gmap nat (list row) :=
  let l := fresh (dom h) in (l, <[l := v]> h).

(** *** Tk timers *)

(** [self.after(ms, _tick)] *)
Definition after (ms : Z) (s : app) : nat * app :=
  let id := next_after s in
  (id, with_timers (<[id := ms]> (timers s)) (S id) s).

(** [self.after_cancel(id)] *)
Definition after_cancel (id : nat) (s : app) : app :=
  with_timers (delete id (timers s)) (next_after s) s.

Section Methods.
Variable isoformat_render : string -> option string.

Definition render (r : row) : item :=
  Item
    [ match rank r with Some z => str_of_int z | None => "" end;
      match symbol r with Some s => s | None => "" end;
      match name r with Some s => s | None => "" end;
      Fmt.fmt_price (price r);
      Fmt.fmt_pct (pct24h r);
      Fmt.fmt_pct (pct7d r);
      match mcap r with Some _ => Fmt.fmt_money (mcap r) | None => "-" end;
      match vol24h r with Some _ => Fmt.fmt_money (vol24h r) | None => "-" end;
      Fmt.fmt_dt isoformat_render (updated r) ]
    (row_tag r).

Definition apply_filter (s : app) : res :=
  let query := query_of (search_var s) in
  let (filtered, h1) :=
    alloc (List.filter (matches query) (deref (heap s) (rows_raw s)))
      (heap s) in
  let (col, desc) := current_sort s in
  match sort_rows col desc (deref h1 filtered) with
  | None => Exn (with_heap h1 s)
  | Some sorted =>
      let h2 := <[filtered := sorted]> h1 in
      Ok (with_tree (List.map render (deref h2 filtered)) (with_heap h2 s))
  end.

Definition sort_by (col : column) (s : app) : res :=
  let desc :=
    if column_eqb col (fst (current_sort s))
    then negb (snd (current_sort s)) else false in
  apply_filter (with_current_sort (col, desc) s).

(** *** [refresh] *)

Definition truthy (j : Fetch.json) : bool :=
  match j with
  | Fetch.JNull => false
  | Fetch.JBool b => b
  | Fetch.JNum x => negb (PyNum.eqb x (PyInt 0))
  | Fetch.JStr s => PyStr.truthy s
  | Fetch.JList l => match l with [] => false | _ => true end
  | Fetch.JDict l => match l with [] => false | _ => true end
  end.

(** [d.get(k)] and [d.get(k, {})]; [None] is the [AttributeError] of a
    receiver that is not a dict. *)
Definition dict_get (k : string) (d : Fetch.json) : option Fetch.json :=
  match d with
  | Fetch.JDict items =>
      Some (match Fetch.assoc k items with
            | Some v => v
            | None => Fetch.JNull
            end)
  | _ => None
  end.
Definition dict_get_or_empty (k : string) (d : Fetch.json)
  : option Fetch.json :=
  match d with
  | Fetch.JDict items =>
      Some (match Fetch.assoc k items with
            | Some v => v
            | None => Fetch.JDict []
            end)
  | _ => None
  end.

(** The fields have the types of the listing API: a value of another
    JSON type is outside the record and reads as absent. *)
Definition as_int (j : Fetch.json) : option Z :=
  match j with Fetch.JNum (PyInt z) => Some z | _ => None end.
Definition as_num (j : Fetch.json) : option number :=
  match j with Fetch.JNum x => Some x | _ => None end.
Definition as_str (j : Fetch.json) : option string :=
  match j with Fetch.JStr s => Some s | _ => None end.

(** The body of the loop up to [row = {...}]; [None] when it raises. *)
Definition row_of_coin (coin : Fetch.json) : option row :=
  match dict_get_or_empty "quote" coin with
  | None => None
  | Some quote =>
      match dict_get_or_empty "USD" quote with
      | None => None
      | Some q =>
          match dict_get "cmc_rank" coin, dict_get "symbol" coin,
                dict_get "name" coin, dict_get "price" q,
                dict_get "percent_change_24h" q,
                dict_get "percent_change_7d" q,
                dict_get "market_cap" q, dict_get "volume_24h" q,
                dict_get "last_updated" q, dict_get "last_updated" coin
          with
          | Some rk, Some sy, Some nm, Some pr, Some p24, Some p7,
            Some mc, Some vo, Some uq, Some uc =>
              Some (Row (as_int rk) (as_str sy) (as_str nm) (as_num pr)
                      (as_num p24) (as_num p7) (as_num mc) (as_num vo)
                      (as_str (if truthy uq then uq else uc)))
          | _, _, _, _, _, _, _, _, _, _ => None
          end
      end
  end.

(** What [for coin in data] walks over; [None] when [data] is not
    iterable. *)
Definition iterate (data : Fetch.json) : option (list Fetch.json) :=
  match data with
  | Fetch.JList l => Some l
  | Fetch.JDict items => Some (List.map (fun kv => Fetch.JStr (fst kv)) items)
  | Fetch.JStr s =>
      Some (List.map (fun c => Fetch.JStr (String c EmptyString))
              (list_ascii_of_string s))
  | _ => None
  end.

(** [self.rows_raw.append(row)] for each coin, until one raises. *)
Fixpoint append_rows (coins : list Fetch.json) (s : app) : res :=
  match coins with
  | [] => Ok s
  | coin :: rest =>
      match row_of_coin coin with
      | None => Exn s
      | Some r =>
          append_rows rest
            (with_heap
               (<[rows_raw s := (deref (heap s) (rows_raw s) ++ [r])%list]> (heap s))
               s)
      end
  end.

(** [limit] is [int(self.limit_var.get())], [None] when it raises
    [ValueError]; [w] is what the network answers. *)
Definition refresh (limit : option Z) (w : Fetch.get_result) (s : app)
  : res :=
  match limit with
  | None =>
      Ok (show [Fetch.Dialog "Input Error" "Limit must be an integer."] s)
  | Some _ =>
      let (out, shown) := Fetch.fetch_listings w in
      let s := show shown s in
      match out with
      | Fetch.Escaped _ => Exn s
      | Fetch.Returned data =>
          let (l, h) := alloc [] (heap s) in
          let s := with_rows_raw l (with_heap h s) in
          match iterate data with
          | None => Exn s
          | Some coins => bind (append_rows coins s) apply_filter
          end
      end
  end.

(** *** Auto-refresh *)

(** [auto] is [int(self.auto_var.get())], [None] when it raises
    [ValueError]. An id that [after] returned is a non-empty string,
    hence true. *)
Definition apply_auto_refresh (auto : option Z) (s : app) : app :=
  let s :=
    match after_id s with
    | Some id => with_after_id None (after_cancel id s)
    | None => s
    end in
  let ms := match auto with Some ms => ms | None => 0 end in
  if (0 <? ms)%Z then
    let (id, s) := after ms s in with_after_id (Some id) s
  else s.

(** Tk runs the callback of the pending timer [id]: the timer leaves
    the table, then [_tick] refreshes and schedules itself again. *)
Definition fire (id : nat) (limit : option Z) (w : Fetch.get_result)
    (s : app) : res :=
  match timers s !! id with
  | None => Ok s
  | Some ms =>
      bind (refresh limit w (after_cancel id s))
        (fun s => let (id', s) := after ms s in
                  Ok (with_after_id (Some id') s))
  end.

(** The events that the main loop hands to the window, one at a time:
    the Apply button, a timer that fires, the Refresh button, a click on a
    column heading, and a change of the search text (whose trace calls
    [apply_filter]). *)
Inductive event :=
| Configure (auto : option Z)
| Fire (id : nat) (limit : option Z) (w : Fetch.get_result)
| Refresh (limit : option Z) (w : Fetch.get_result)
| Heading (col : column)
| Search (text : string).

Definition step (s : app) (ev : event) : app :=
  match ev with
  | Configure auto => apply_auto_refresh auto s
  | Fire id limit w => state_of (fire id limit w s)
  | Refresh limit w => state_of (refresh limit w s)
  | Heading col => state_of (sort_by col s)
  | Search text => state_of (apply_filter (with_search_var text s))
  end.

Definition run (evs : list event) (s : app) : app :=
  List.fold_left step evs s.

End Methods.

(** The scheduler part of the state: [_after_id], Tk's pending timers and
    Tk's counter of timer ids. *)
Definition sched (s : app) : option nat * gmap nat Z * nat :=
  (after_id s, timers s, next_after s).

(** [rows_raw] names a list object. *)
Definition allocated (s : app) : Prop := is_Some (heap s !! rows_raw s).

(** No timer is pending, or one is and [_after_id] names it. *)
Definition one_timer (s : app) : Prop :=
  timers s = ∅ \/ exists id ms, after_id s = Some id /\ timers s = {[id := ms]}.

(** The window as [__init__] sets it up before the first [refresh]: an
    empty [rows_raw], sorted by rank, ascending; no timer. *)
Definition init_app : app :=
  MkApp "" {[0%nat := []]} 0%nat (Rank, false) [] None ∅ 0%nat [].

(** A window that holds three rows, sorted by price. *)
Definition demo_app : app :=
  MkApp "" {[0%nat := [Row None None None None None None None None None;
                       Row None None None (Some (PyInt 5)) None None None None None;
                       Row None None None (Some (PyInt 3)) None None None None None]]}
    0%nat (Price, false) [] None ∅ 0%nat [].

(** Rows for examples: only a price, or only a symbol and a name. *)
Definition priced (p : option number) : row :=
  Row None None None p None None None None None.
Definition named (sym nm : option string) : row :=
  Row None sym nm None None None None None None.

(** The state in [__init__] after [self._after_id = None], whatever the
    initial [refresh] left in the rest of the state. *)
Definition started (s : app) : Prop :=
  after_id s = None /\ timers s = ∅.

Definition pending (s : app) : nat := size (timers s).

End App.

(* ===================================================================== *)
(** ** [App.__init__] *)
(* ===================================================================== *)

Module Startup.
Import App.


Section Init.
Variable isoformat_render : string -> option string.


End Init.
End Startup.

(* ===================================================================== *)
(** ** A sample answer of the listings endpoint *)
(* ===================================================================== *)

Module Demo.
Import PyNum Fetch.
Local Open Scope string_scope.

Definition bitcoin : json :=
  JDict [("cmc_rank", JNum (PyInt 1)); ("symbol", JStr "BTC");
         ("name", JStr "Bitcoin");
         ("last_updated", JStr "2024-01-01T00:00:00.000Z");
         ("quote",
          JDict [("USD",
                  JDict [("price", JNum (PyInt 42000));
                         ("percent_change_24h", JNum (PyInt (-2)));
                         ("market_cap", JNum (PyInt 820000000000))])])].

(** A coin without its quote. *)
Definition unquoted : json :=
  JDict [("cmc_rank", JNum (PyInt 2)); ("symbol", JStr "ETH");
         ("name", JStr "Ethereum")].

(** A coin whose quote is [null]. *)
Definition null_quote : json :=
  JDict [("cmc_rank", JNum (PyInt 3)); ("symbol", JStr "XRP");
         ("quote", JNull)].

Definition bitcoin_row : App.row :=
  App.Row (Some 1) (Some "BTC") (Some "Bitcoin") (Some (PyInt 42000))
    (Some (PyInt (-2))) None (Some (PyInt 820000000000)) None
    (Some "2024-01-01T00:00:00.000Z").

Definition unquoted_row : App.row :=
  App.Row (Some 2) (Some "ETH") (Some "Ethereum") None None None None None
    None.

(** The answer with status 200 whose payload is [payload]. *)
Definition answer (payload : json) : get_result :=
  GetReturns (Response None "" (inr payload)).

Definition listing (coins : list json) : get_result :=
  answer (JDict [("status", JDict []); ("data", JList coins)]).

End Demo.

(* ===================================================================== *)
(** ** The lookup script [main.py] *)
(* ===================================================================== *)

Module Main.
Import PyNum Fetch.
Local Open Scope string_scope.

(** [str.upper] on one ASCII character: [a]..[z] move up by 32. *)
Definition upper_char (c : ascii) : ascii :=
  if ((97 <=? PyStr.code c) && (PyStr.code c <=? 122))%N
  then ascii_of_N (PyStr.code c - 32) else c.

Fixpoint upper (s : string) : string :=
  match s with
  | EmptyString => EmptyString
  | String c s' => String (upper_char c) (upper s')
  end.

(** The exceptions that can end the script; none is caught. *)
Inductive error :=
| RequestError (msg : string)
| DecodeError (msg : string)
| KeyError (key : string)
| TypeError
| ValueError
| OverflowError.

(** The response as the script reads it. [body] is what [response.json()]
    returns, or the message of the exception it raises. *)
Record response := Response {
  status_code : Z;
  text : string;
  body : string + json
}.

Inductive get_result :=
| GetRaises (msg : string)
| GetReturns (r : response).

(** [x[k]] for a string [k]: only a dict can be indexed by a string. *)
Definition subscript (x : json) (k : string) : error + json :=
  match x with
  | JDict items =>
      match assoc k items with
      | Some v => inr v
      | None => inl (KeyError k)
      end
  | _ => inl TypeError
  end.

(** [k in x] for a string [k]: a key of a dict, an element of a list, a
    substring of a string; the other values are not containers. *)
Definition member (k : string) (x : json) : error + bool :=
  match x with
  | JDict items =>
      inr (match assoc k items with Some _ => true | None => false end)
  | JList l =>
      inr (List.existsb
             (fun v => match v with JStr t => String.eqb t k | _ => false end) l)
  | JStr t => inr (PyStr.contains k t)
  | _ => inl TypeError
  end.

(** [format(x, ",.df")] and [format(x, ".df")] for a value of the payload:
    a boolean is the int 0 or 1; a string rejects the format code; [None],
    lists and dicts have no such format. *)
Definition format_value (comma : bool) (d : nat) (x : json) : error + string :=
  match x with
  | JNum n =>
      match Fmt.format_number comma d n with
      | Some t => inr t
      | None => inl OverflowError
      end
  | JBool b =>
      match Fmt.format_number comma d (PyInt (if b then 1 else 0)) with
      | Some t => inr t
      | None => inl OverflowError
      end
  | JStr _ => inl ValueError
  | _ => inl TypeError
  end.

Definition newline : string := String (ascii_of_N 10) EmptyString.

Section Script.
(** [str(x)] for the values whose text is not spelled out below: floats,
    lists and dicts. *)
Variable py_repr : json -> string.

Definition str_of (x : json) : string :=
  match x with
  | JStr t => t
  | JNull => "None"
  | JBool true => "True"
  | JBool false => "False"
  | JNum (PyInt z) => App.str_of_int z
  | _ => py_repr x
  end.

(** The four [print] calls, in order: a call that raises keeps what was
    printed before it. *)
Definition print_coin (symbol : string) (name price change market_cap : json)
  : list string * option error :=
  let line1 :=
    String.append newline
      (String.append (str_of name)
         (String.append " (" (String.append symbol ")"))) in
  match format_value true 2 price with
  | inl e => ([line1], Some e)
  | inr p =>
      let line2 := String.append "Price: $" p in
      match format_value false 2 change with
      | inl e => ([line1; line2], Some e)
      | inr c =>
          let line3 := String.append "24h Change: " (String.append c "%") in
          match format_value true 0 market_cap with
          | inl e => ([line1; line2; line3], Some e)
          | inr m =>
              ([line1; line2; line3; String.append "Market Cap: $" m], None)
          end
      end
  end.

(** The reads of the found branch, in order; the first one that raises
    ends the script before anything is printed. *)
Definition read_coin (table : json) (symbol : string)
  : error + (json * json * json * json) :=
  match subscript table symbol with
  | inl e => inl e
  | inr coin =>
      match subscript coin "name" with
      | inl e => inl e
      | inr name =>
          let usd :=
            match subscript coin "quote" with
            | inl e => inl e
            | inr quote => subscript quote "USD"
            end in
          match usd with
          | inl e => inl e
          | inr usd =>
              match subscript usd "price" with
              | inl e => inl e
              | inr price =>
                  match subscript usd "percent_change_24h" with
                  | inl e => inl e
                  | inr change =>
                      match subscript usd "market_cap" with
                      | inl e => inl e
                      | inr market_cap => inr (name, price, change, market_cap)
                      end
                  end
              end
          end
      end
  end.

(** The script: [typed] is what the user types at the prompt, [w] what the
    request does. The result is what the script prints, one string per
    [print], and the exception that ends it, if any. *)
Definition main (typed : string) (w : get_result)
  : list string * option error :=
  let symbol := upper typed in
  match w with
  | GetRaises msg => ([], Some (RequestError msg))
  | GetReturns r =>
      if (status_code r =? 200)%Z then
        match body r with
        | inl msg => ([], Some (DecodeError msg))
        | inr data =>
            match subscript data "data" with
            | inl e => ([], Some e)
            | inr table =>
                match member symbol table with
                | inl e => ([], Some e)
                | inr true =>
                    match read_coin table symbol with
                    | inl e => ([], Some e)
                    | inr (name, price, change, market_cap) =>
                        print_coin symbol name price change market_cap
                    end
                | inr false => (["Symbol not found in API response."], None)
                end
            end
        end
      else
        ([String.append "Error: "
            (String.append (App.str_of_int (status_code r))
               (String.append " " (text r)))],
         None)
  end.

End Script.

(** A quotes answer for one coin. *)
Definition quotes (symbol : string) (coin : json) : get_result :=
  GetReturns (Response 200 "" (inr (JDict [("data", JDict [(symbol, coin)])]))).

End Main.

(* ===================================================================== *)
(** ** Vocabulary of the statements below *)
(* ===================================================================== *)

Module Shape.
Import App.
Local Open Scope string_scope.

(** An amount printed with the magnitude letter [suffix], or the
    placeholder. *)
Definition abbreviated (suffix out : string) : Prop :=
  out = "-" \/ exists body, out = String.append "$" (String.append body suffix).

(** The position of a column in the [values] of an item. *)
Definition index (col : column) : nat :=
  match col with
  | Rank => 0 | Symbol => 1 | Name => 2 | Price => 3 | Pct24h => 4
  | Pct7d => 5 | Mcap => 6 | Vol24h => 7 | Updated => 8
  end.

(** The text that an item shows under a column. *)
Definition shown_at (it : item) (col : column) : option string :=
  values it !! index col.

(** What the tree shows for a missing value. *)
Definition placeholder (col : column) : string :=
  match col with
  | Rank | Symbol | Name => ""
  | _ => "-"
  end.

(** The ids that Tk has handed out are below its counter. *)
Definition ids_below (s : app) : Prop :=
  (forall i, is_Some (timers s !! i) -> (i < next_after s)%nat)
  /\ (forall i, after_id s = Some i -> (i < next_after s)%nat).

End Shape.

(* ===================================================================== *)
(** * Properties *)
(* ===================================================================== *)

(** ** Strings *)

Module PyStrFacts.
Import PyStr.

Lemma lower_append (a b : string) :
  lower (String.append a b) = String.append (lower a) (lower b).
Proof.
  induction a as [|c a IH]; simpl; [reflexivity|]. now rewrite IH.
Qed.

Lemma prefix_append (q t : string) : String.prefix q (String.append q t) = true.
Proof.
  induction q as [|c q IH]; simpl.
  - now destruct t.
  - destruct (ascii_dec c c) as [_|n]; [exact IH | now destruct n].
Qed.

Lemma contains_prefix (q s : string) :
  String.prefix q s = true -> contains q s = true.
Proof. destruct s; simpl; intros ->; reflexivity. Qed.

Lemma contains_here (q t : string) : contains q (String.append q t) = true.
Proof. apply contains_prefix, prefix_append. Qed.

Lemma contains_later (q a t : string) :
  contains q t = true -> contains q (String.append a t) = true.
Proof.
  intros H. induction a as [|c a IH]; simpl; [exact H|].
  rewrite IH. apply orb_true_r.
Qed.

Lemma contains_middle (q a b : string) :
  contains q (String.append a (String.append q b)) = true.
Proof. apply contains_later, contains_here. Qed.

Lemma truthy_empty (s : string) : truthy s = false <-> s = EmptyString.
Proof. destruct s; simpl; split; congruence. Qed.

End PyStrFacts.

(** ** The sort *)

Module PySortFacts.
Import PySort.

Section Agreement.
Context {A K : Type} (key : A -> K) (lt : K -> K -> option bool)
  (ltb : A -> A -> bool).
Hypothesis lt_total : forall a b, lt (key a) (key b) = Some (ltb a b).

Lemma insert_agrees (x : A) (l : list A) :
  insert key lt x l = Some (insert_total ltb x l).
Proof.
  induction l as [|y l IH]; simpl; [reflexivity|].
  rewrite lt_total. destruct (ltb y x); [|reflexivity].
  now rewrite IH.
Qed.

Lemma sorted_of_agrees (l : list A) :
  sorted_of key lt l = Some (sort_total ltb l).
Proof.
  induction l as [|x l IH]; simpl; [reflexivity|].
  rewrite IH. apply insert_agrees.
Qed.

Lemma list_sort_agrees (reverse : bool) (l : list A) :
  list_sort key lt reverse l = Some (list_sort_total ltb reverse l).
Proof.
  unfold list_sort, list_sort_total. destruct reverse.
  - now rewrite sorted_of_agrees.
  - apply sorted_of_agrees.
Qed.
End Agreement.

Section Order.
Context {A : Type} (ltb : A -> A -> bool).

Lemma insert_total_perm (x : A) (l : list A) :
  Permutation (insert_total ltb x l) (x :: l).
Proof.
  induction l as [|y l IH]; simpl; [reflexivity|].
  destruct (ltb y x); [|reflexivity].
  rewrite IH. apply perm_swap.
Qed.

Lemma sort_total_perm (l : list A) : Permutation (sort_total ltb l) l.
Proof.
  induction l as [|x l IH]; simpl; [reflexivity|].
  rewrite insert_total_perm. now apply perm_skip.
Qed.

Lemma list_sort_total_perm (reverse : bool) (l : list A) :
  Permutation (list_sort_total ltb reverse l) l.
Proof.
  unfold list_sort_total. destruct reverse; [|apply sort_total_perm].
  rewrite <- Permutation_rev, sort_total_perm.
  symmetry. apply Permutation_rev.
Qed.


(** *** Stability: a class of rows that [ltb] never relates keeps its
    order *)
Section Stable.
Variable P : A -> bool.
Hypothesis P_unordered :
  forall x y, ltb y x = true -> P x = true -> P y = false.



End Stable.

(** *** A class of greatest rows is put last, in its original order *)
Section Last.
Variable N : A -> bool.
Hypothesis below : forall a b, N a = false -> N b = true -> ltb a b = true.
Hypothesis not_below : forall a b, N a = true -> ltb a b = false.





End Last.

(** *** The result is in order *)
Section InOrder.
Hypothesis asym : forall a b, ltb a b = true -> ltb b a = false.
Hypothesis negtrans :
  forall x y z, ltb y x = false -> ltb z y = false -> ltb z x = false.

Lemma insert_total_sorted (x : A) (l : list A) :
  StronglySorted (fun a b => ltb b a = false) l ->
  StronglySorted (fun a b => ltb b a = false) (insert_total ltb x l).
Proof.
  induction l as [|y l IH]; intros S; cbn.
  - repeat constructor.
  - apply StronglySorted_inv in S as [S Hy].
    destruct (ltb y x) eqn:Hyx.
    + constructor; [now apply IH|].
      eapply Permutation_Forall; [symmetry; apply insert_total_perm|].
      constructor; [now apply asym | exact Hy].
    + constructor; [now constructor|].
      constructor; [exact Hyx|].
      eapply List.Forall_impl; [|exact Hy].
      intros z Hz. now apply (negtrans x y z).
Qed.

Lemma sort_total_sorted (l : list A) :
  StronglySorted (fun a b => ltb b a = false) (sort_total ltb l).
Proof.
  induction l as [|x l IH]; cbn; [constructor|].
  now apply insert_total_sorted.
Qed.




End InOrder.
End Order.
End PySortFacts.

(** ** Formatters *)

Module FmtFacts.
Import PyNum Fmt.
Local Open Scope string_scope.

(** The literals of the examples are the expected binary64 values. *)
Lemma literals :
  float_literal false 5 10 = Some (PyFloat (Dyadic false 4503599627370496 (-53)))
  /\ float_literal false 25 10 = Some (PyFloat (Dyadic false 5629499534213120 (-51)))
  /\ float_literal true 3456 1000 = Some (PyFloat (Dyadic true 7782220156096217 (-51))).
Proof. repeat split; vm_compute; reflexivity. Qed.

(** Binary rounding shows in the output: [1_015_000_000 / 1e9] is just
    below 1.015. *)
Lemma fmt_money_binary_rounding :
  fmt_money (Some (PyInt 1015000000)) = "$1.01B".
Proof. vm_compute. reflexivity. Qed.

Lemma fmt_money_thresholds :
  fmt_money (Some (PyInt 2500000000000)) = "$2.50T"
  /\ fmt_money (Some (PyInt 1234567)) = "$1.23M"
  /\ fmt_money (Some (PyInt 1000)) = "$1.00K"
  /\ fmt_money (Some (PyInt 999)) = "$999.00"
  /\ fmt_money (float_literal false 123456789 100) = "$1.23M".
Proof. repeat split; vm_compute; reflexivity. Qed.

(** C7: [fmt_money(1_500_000_000)] is ["$1.50B"], [fmt_price(0.5)] is
    ["$0.50000000"], [fmt_price(2.5)] is ["$2.50"], [fmt_pct(-3.456)] is
    ["-3.46%"], and each of [fmt_money], [fmt_price], [fmt_pct] and
    [fmt_dt] returns ["-"] on [None]. *)
Theorem formatter_examples (isoformat_render : string -> option string) :
  fmt_money (Some (PyInt 1500000000)) = "$1.50B"
  /\ fmt_price (float_literal false 5 10) = "$0.50000000"
  /\ fmt_price (float_literal false 25 10) = "$2.50"
  /\ fmt_pct (float_literal true 3456 1000) = "-3.46%"
  /\ fmt_money None = "-"
  /\ fmt_price None = "-"
  /\ fmt_pct None = "-"
  /\ fmt_dt isoformat_render None = "-".
Proof. repeat split; vm_compute; reflexivity. Qed.

End FmtFacts.

(** ** Numbers *)

Module PyNumFacts.
Import PyNum.

Lemma ltb_lt (a b : number) : ltb a b = true <-> (value a < value b)%Q.
Proof.
  unfold ltb. rewrite Qlt_alt.
  destruct (value a ?= value b)%Q; split; congruence.
Qed.

Lemma geb_le (a b : number) : geb a b = true <-> (value b <= value a)%Q.
Proof.
  unfold geb. rewrite negb_true_iff. split.
  - intros H. apply Qnot_lt_le. intros L. apply ltb_lt in L. congruence.
  - intros H. destruct (ltb a b) eqn:L; [|reflexivity].
    apply ltb_lt in L. exfalso. exact (Qlt_not_le _ _ L H).
Qed.

Lemma geb_false_lt (a b : number) : geb a b = false <-> (value a < value b)%Q.
Proof. unfold geb. rewrite negb_false_iff. apply ltb_lt. Qed.

Lemma eqb_eq (a b : number) : eqb a b = true <-> (value a == value b)%Q.
Proof. apply Qeq_bool_iff. Qed.


Lemma ltb_asym (a b : number) : ltb a b = true -> ltb b a = false.
Proof.
  intros L. apply ltb_lt in L. destruct (ltb b a) eqn:G; [|reflexivity].
  apply ltb_lt in G. exfalso. exact (Qlt_not_le _ _ L (Qlt_le_weak _ _ G)).
Qed.

Lemma ltb_false_le (a b : number) :
  ltb a b = false <-> (value b <= value a)%Q.
Proof. rewrite <- geb_le. unfold geb. now rewrite negb_true_iff. Qed.

Lemma ltb_negtrans (x y z : number) :
  ltb y x = false -> ltb z y = false -> ltb z x = false.
Proof.
  rewrite !ltb_false_le. intros H1 H2. now apply Qle_trans with (value y).
Qed.

(** [a < b] already says that [a] and [b] are not equal. *)
Lemma ltb_strict (a b : number) : negb (eqb a b) && ltb a b = ltb a b.
Proof.
  destruct (ltb a b) eqn:L; [|apply andb_false_r].
  apply ltb_lt in L. destruct (eqb a b) eqn:E; [|reflexivity].
  apply eqb_eq in E. exfalso. exact (Qlt_not_eq _ _ L E).
Qed.

End PyNumFacts.

(** ** Rows and their order *)

Module RowFacts.
Import PyNum App.

Lemma get_same_type (col : column) (a b : row) :
  same_type (get a col) (get b col).
Proof.
  destruct col; cbn [get];
    match goal with
    | |- same_type (_ ?x) (_ ?y) => destruct x, y; exact I
    end.
Qed.

(** Two rows never raise when their keys are compared. *)
Lemma key_lt_total (col : column) (a b : row) :
  key_lt (sort_key col a) (sort_key col b) = Some (row_ltb col a b).
Proof.
  generalize (get_same_type col a b).
  unfold row_ltb, key_lt, sort_key.
  destruct (get a col), (get b col); cbn; intros T; try reflexivity;
    try contradiction;
    match goal with |- context [negb ?c] => destruct c end; reflexivity.
Qed.

Lemma sort_rows_total (col : column) (desc : bool) (l : list row) :
  sort_rows col desc l
  = Some (PySort.list_sort_total (row_ltb col) desc l).
Proof. apply PySortFacts.list_sort_agrees, key_lt_total. Qed.

Lemma row_ltb_cases (col : column) (a b : row) :
  row_ltb col a b = cell_ltb (get a col) (get b col).
Proof.
  unfold row_ltb, key_lt, sort_key, cell_ltb.
  destruct (get a col), (get b col); cbn; try reflexivity;
    match goal with |- context [negb ?c] => destruct c end; reflexivity.
Qed.



Lemma string_ltb_irrefl (s : string) : String.ltb s s = false.
Proof.
  unfold String.ltb. pose proof (String.compare_antisym s s) as H.
  destruct (String.compare s s); cbn in H; congruence.
Qed.


(** *** The keys of one column are totally preordered *)

Lemma string_ltb_lt (s t : string) :
  String.ltb s t = true <-> OrderedTypeEx.String_as_OT.lt s t.
Proof.
  rewrite <- OrderedTypeEx.String_as_OT.cmp_lt.
  unfold String.ltb, OrderedTypeEx.String_as_OT.cmp.
  destruct (String.compare s t); split; congruence.
Qed.

Lemma string_ltb_asym (s t : string) :
  String.ltb s t = true -> String.ltb t s = false.
Proof.
  intros L. destruct (String.ltb t s) eqn:G; [|reflexivity].
  apply string_ltb_lt in L, G. exfalso.
  exact (OrderedTypeEx.String_as_OT.lt_not_eq _ _
           (OrderedTypeEx.String_as_OT.lt_trans _ _ _ L G) eq_refl).
Qed.

Lemma string_ltb_total (s t : string) :
  String.ltb s t = false -> s = t \/ String.ltb t s = true.
Proof.
  intros L. destruct (String.compare s t) eqn:C.
  - left. now apply OrderedTypeEx.String_as_OT.cmp_eq.
  - unfold String.ltb in L. rewrite C in L. discriminate L.
  - right. unfold String.ltb.
    rewrite String.compare_antisym, C. reflexivity.
Qed.

Lemma string_ltb_negtrans (x y z : string) :
  String.ltb y x = false -> String.ltb z y = false -> String.ltb z x = false.
Proof.
  intros H1 H2. destruct (String.ltb z x) eqn:L; [|reflexivity]. exfalso.
  destruct (string_ltb_total _ _ H1) as [-> | G]; [congruence|].
  apply string_ltb_lt in L, G.
  pose proof (OrderedTypeEx.String_as_OT.lt_trans _ _ _ L G) as T.
  apply string_ltb_lt in T. congruence.
Qed.

Lemma string_ltb_strict (s t : string) :
  negb (String.eqb s t) && String.ltb s t = String.ltb s t.
Proof.
  destruct (String.ltb s t) eqn:L; [|apply andb_false_r].
  destruct (String.eqb_spec s t) as [->|]; [|reflexivity].
  now rewrite string_ltb_irrefl in L.
Qed.

Lemma cell_ltb_asym (c d : cell) :
  cell_ltb c d = true -> cell_ltb d c = false.
Proof.
  destruct c as [|x|s], d as [|y|t]; cbn; try congruence.
  - rewrite !PyNumFacts.ltb_strict. apply PyNumFacts.ltb_asym.
  - unfold PyStr.ltb. rewrite !string_ltb_strict. apply string_ltb_asym.
Qed.

Lemma cell_ltb_negtrans (x y z : cell) :
  same_type x y -> same_type y z -> same_type x z ->
  cell_ltb y x = false -> cell_ltb z y = false -> cell_ltb z x = false.
Proof.
  destruct x as [|x|x], y as [|y|y], z as [|z|z]; cbn;
    try congruence; try contradiction; intros _ _ _.
  - rewrite !PyNumFacts.ltb_strict. apply PyNumFacts.ltb_negtrans.
  - unfold PyStr.ltb. rewrite !string_ltb_strict. apply string_ltb_negtrans.
Qed.

Lemma row_ltb_asym (col : column) (a b : row) :
  row_ltb col a b = true -> row_ltb col b a = false.
Proof. rewrite !row_ltb_cases. apply cell_ltb_asym. Qed.

Lemma row_ltb_negtrans (col : column) (x y z : row) :
  row_ltb col y x = false -> row_ltb col z y = false ->
  row_ltb col z x = false.
Proof.
  rewrite !row_ltb_cases. apply cell_ltb_negtrans; apply get_same_type.
Qed.


End RowFacts.

(** ** The filter and sort pipeline *)

Module Pipeline.
Import PyNum App.
Local Open Scope string_scope.

Lemma visible_total (search : string) (sort : column * bool)
    (rows : list row) :
  visible search sort rows
  = Some (PySort.list_sort_total (row_ltb (fst sort)) (snd sort)
            (List.filter (matches (query_of search)) rows)).
Proof. apply RowFacts.sort_rows_total. Qed.





(** Rows with the same price keep their input order in both directions:
    descending is not the reverse of ascending. *)
Example equal_prices_keep_their_order :
  let a := Row None (Some "A") None (Some (PyInt 5)) None None None None None in
  let b := Row None (Some "B") None (Some (PyInt 3)) None None None None None in
  let c := Row None (Some "C") None (float_literal false 50 10) None None None None None in
  sort_rows Price false [a; b; c] = Some [b; a; c]
  /\ sort_rows Price true [a; b; c] = Some [a; c; b].
Proof. split; vm_compute; reflexivity. Qed.

(** C2, as the claim has it, fails for a query with a space at its end:
    the row is shown, the query is not empty, and the query is not a
    case-insensitive substring of ["BTC Bitcoin"]. *)
Lemma padded_query_is_not_a_substring :
  visible "bitcoin " (Rank, false) [named (Some "BTC") (Some "Bitcoin")]
  = Some [named (Some "BTC") (Some "Bitcoin")]
  /\ "bitcoin " <> ""
  /\ haystack (named (Some "BTC") (Some "Bitcoin")) = "BTC Bitcoin"
  /\ PyStr.contains (PyStr.lower "bitcoin ")
       (PyStr.lower (haystack (named (Some "BTC") (Some "Bitcoin"))))
     = false.
Proof. repeat split; try (vm_compute; reflexivity). discriminate. Qed.

Lemma matches_nonempty (q : string) (r : row) :
  q <> "" ->
  matches q r = PyStr.contains q (PyStr.lower (haystack r)).
Proof.
  intros H. unfold matches. destruct q; [contradiction|reflexivity].
Qed.

Lemma filter_all_true {A : Type} (f : A -> bool) (l : list A) :
  (forall a, f a = true) -> List.filter f l = l.
Proof.
  intros H. induction l as [|a l IH]; cbn; [reflexivity|].
  now rewrite H, IH.
Qed.

Lemma filter_matching_perm (search : string) (sort : column * bool)
    (rows : list row) :
  exists out,
    visible search sort rows = Some out
    /\ Permutation out (List.filter (matches (query_of search)) rows).
Proof.
  eexists. split; [apply visible_total|].
  apply PySortFacts.list_sort_total_perm.
Qed.

(** C2, amended: let [q] be the text of the search box without the white
    space around it, in lower case. The pipeline shows a permutation of the
    rows that match. When [q] is not empty, a row is shown exactly when it
    is an input row and [q] is a substring of the lowered symbol and name
    joined by one space; when [q] is empty (the text is empty or all white
    space) as many rows are shown as there are input rows. *)
Theorem filter_keeps_matching_rows (search : string) (sort : column * bool)
    (rows : list row) :
  exists out,
    visible search sort rows = Some out
    /\ Permutation out (List.filter (matches (query_of search)) rows)
    /\ (query_of search <> "" ->
        forall r, In r out <->
                  In r rows
                  /\ PyStr.contains (query_of search)
                       (PyStr.lower (haystack r)) = true)
    /\ (query_of search = "" -> List.length out = List.length rows).
Proof.
  eexists. split; [apply visible_total|].
  pose proof (PySortFacts.list_sort_total_perm (row_ltb (fst sort)) (snd sort)
                (List.filter (matches (query_of search)) rows)) as HP.
  split; [exact HP|]. split.
  - intros Hq r. split.
    + intros Hin. apply (Permutation_in _ HP) in Hin.
      apply List.filter_In in Hin as [Hin Hm].
      now rewrite (matches_nonempty _ _ Hq) in Hm.
    + intros [Hin Hm]. apply (Permutation_in _ (Permutation_sym HP)).
      apply List.filter_In. split; [exact Hin|].
      now rewrite (matches_nonempty _ _ Hq).
  - intros Hq. rewrite (Permutation_length HP), Hq.
    now rewrite filter_all_true.
Qed.

Lemma filter_keeps_matching_rows_witness :
  (query_of " BtC " <> ""
   /\ exists out,
        visible " BtC " (Rank, false)
          [named (Some "ETH") (Some "Ethereum");
           named (Some "BTC") (Some "Bitcoin")]
        = Some out
        /\ In (named (Some "BTC") (Some "Bitcoin")) out
        /\ ~ In (named (Some "ETH") (Some "Ethereum")) out)
  /\ (query_of "  " = ""
      /\ exists out,
           visible "  " (Rank, false)
             [named (Some "ETH") (Some "Ethereum");
              named (Some "BTC") (Some "Bitcoin")]
           = Some out
           /\ List.length out = 2%nat).
Proof.
  split.
  - split; [vm_compute; discriminate|].
    destruct (filter_keeps_matching_rows " BtC " (Rank, false)
                [named (Some "ETH") (Some "Ethereum");
                 named (Some "BTC") (Some "Bitcoin")])
      as (out & Hv & _ & Hin & _).
    exists out. split; [exact Hv|]. split.
    + apply Hin; [vm_compute; discriminate|].
      split; [right; left; reflexivity | vm_compute; reflexivity].
    + intros H. apply Hin in H; [|vm_compute; discriminate].
      destruct H as [_ H]. vm_compute in H. discriminate H.
  - split; [vm_compute; reflexivity|].
    destruct (filter_keeps_matching_rows "  " (Rank, false)
                [named (Some "ETH") (Some "Ethereum");
                 named (Some "BTC") (Some "Bitcoin")])
      as (out & Hv & _ & _ & Hlen).
    exists out. split; [exact Hv|].
    apply Hlen. vm_compute. reflexivity.
Defined.

(** *** The literal ["None"] in the haystack *)

Lemma matches_none_symbol (r : row) :
  symbol r = None -> matches "none" r = true.
Proof.
  intros H. unfold matches, haystack. rewrite H. cbn [PyStr.truthy negb PyStr.str_of].
  rewrite PyStrFacts.lower_append.
  change (PyStr.lower "None") with "none".
  apply PyStrFacts.contains_here.
Qed.

Lemma matches_none_name (r : row) :
  name r = None -> matches "none" r = true.
Proof.
  intros H. unfold matches, haystack. rewrite H. cbn [PyStr.truthy negb PyStr.str_of].
  rewrite PyStrFacts.lower_append.
  apply PyStrFacts.contains_later. vm_compute. reflexivity.
Qed.

(** C10: the haystack has the literal ["None"] for a symbol or a name that
    is [None], so a query that reads ["none"] in any letter case keeps every
    row whose symbol or name is [None]; for instance the row without a
    symbol and named ["Bitcoin"] is shown for the query ["NoNe"], although
    ["none"] is not in the name and there is no symbol text. *)
Theorem none_query_keeps_null_rows :
  (forall (search : string) (sort : column * bool) (rows : list row) (r : row),
      query_of search = "none" ->
      symbol r = None \/ name r = None ->
      In r rows ->
      matches (query_of search) r = true
      /\ exists out, visible search sort rows = Some out /\ In r out)
  /\ query_of "NoNe" = "none"
  /\ PyStr.contains "none" (PyStr.lower "Bitcoin") = false
  /\ visible "NoNe" (Rank, false)
       [named None (Some "Bitcoin"); named (Some "BTC") (Some "Bitcoin")]
     = Some [named None (Some "Bitcoin")].
Proof.
  split; [|repeat split; vm_compute; reflexivity].
  intros search sort rows r Hq Hnull Hin.
  assert (Hm : matches (query_of search) r = true).
  { rewrite Hq.
    destruct Hnull; [now apply matches_none_symbol | now apply matches_none_name]. }
  split; [exact Hm|].
  destruct (filter_matching_perm search sort rows) as (out & Hv & HP).
  exists out. split; [exact Hv|].
  apply (Permutation_in _ (Permutation_sym HP)).
  apply List.filter_In. now split.
Qed.

Lemma none_query_keeps_null_rows_witness :
  matches (query_of "NoNe") (named None (Some "Bitcoin")) = true
  /\ exists out,
       visible "NoNe" (Symbol, true) [named None (Some "Bitcoin")] = Some out
       /\ In (named None (Some "Bitcoin")) out.
Proof.
  apply (proj1 none_query_keeps_null_rows "NoNe" (Symbol, true)
           [named None (Some "Bitcoin")] (named None (Some "Bitcoin"))).
  - vm_compute. reflexivity.
  - left. reflexivity.
  - left. reflexivity.
Defined.

End Pipeline.

(** ** The window *)

Module Window.
Import PyNum App.
Local Open Scope string_scope.

Section WithRenderer.
Variable iso : string -> option string.

Lemma deref_insert (h : gmap nat (list row)) (l : nat) (v : list row) :
  deref (<[l := v]> h) l = v.
Proof. unfold deref. now rewrite lookup_insert_eq. Qed.

(** [apply_filter] returns: it shows the visible rows, which it leaves in a
    new list object. *)
Lemma apply_filter_returns (s : app) :
  exists out,
    visible (search_var s) (current_sort s) (deref (heap s) (rows_raw s))
    = Some out
    /\ apply_filter iso s
       = Ok (with_tree (List.map (render iso) out)
               (with_heap (<[fresh (dom (heap s)) := out]> (heap s)) s)).
Proof.
  eexists. split; [apply Pipeline.visible_total|].
  unfold apply_filter, alloc. destruct (current_sort s) as [col desc].
  rewrite deref_insert, RowFacts.sort_rows_total, deref_insert.
  now rewrite insert_insert_eq.
Qed.

Lemma column_eqb_eq (a b : column) : column_eqb a b = true <-> a = b.
Proof. destruct a, b; cbn; split; congruence. Qed.

(** C3: from the sort state [(K, d)], [sort_by(C)] returns and leaves the
    state [(K, not d)] when [C] is [K] and [(C, ascending)] when it is
    another column. *)
Theorem sort_by_toggles (s : app) (C K : column) (d : bool) :
  current_sort s = (K, d) ->
  exists s',
    sort_by iso C s = Ok s'
    /\ (C = K -> current_sort s' = (K, negb d))
    /\ (C <> K -> current_sort s' = (C, false)).
Proof.
  intros Hs. unfold sort_by. rewrite Hs. cbn [fst snd].
  destruct (apply_filter_returns
              (with_current_sort
                 (C, if column_eqb C K then negb d else false) s))
    as (out & _ & ->).
  eexists. split; [reflexivity|]. cbn.
  destruct (column_eqb C K) eqn:E.
  - apply column_eqb_eq in E. subst C. split; [reflexivity | congruence].
  - split; [|reflexivity]. intros ->.
    rewrite (proj2 (column_eqb_eq K K) eq_refl) in E. discriminate E.
Qed.

(** The list object of the visible rows is a new one. *)
Lemma fresh_is_not_rows_raw (s : app) :
  allocated s -> fresh (dom (heap s)) <> rows_raw s.
Proof.
  intros Hraw E. apply (is_fresh (dom (heap s))).
  rewrite E. now apply elem_of_dom.
Qed.

(** C8: [apply_filter] leaves the name [rows_raw] and the list object
    behind it as they were; the rows it shows are in a list object that did
    not exist before the call. *)
Theorem apply_filter_keeps_rows_raw (s : app) :
  allocated s ->
  exists s' out,
    apply_filter iso s = Ok s'
    /\ rows_raw s' = rows_raw s
    /\ heap s' !! rows_raw s' = heap s !! rows_raw s
    /\ visible (search_var s) (current_sort s) (deref (heap s) (rows_raw s))
       = Some out
    /\ tree s' = List.map (render iso) out
    /\ exists l, l <> rows_raw s /\ heap s !! l = None
                 /\ heap s' !! l = Some out.
Proof.
  intros Hraw. destruct (apply_filter_returns s) as (out & Hv & Hs).
  pose proof (fresh_is_not_rows_raw s Hraw) as Hne.
  eexists. exists out. split; [exact Hs|]. cbn.
  split; [reflexivity|].
  split; [now apply lookup_insert_ne|].
  split; [exact Hv|]. split; [reflexivity|].
  exists (fresh (dom (heap s))). split; [exact Hne|]. split.
  - apply not_elem_of_dom, is_fresh.
  - apply lookup_insert_eq.
Qed.

(** The same holds when a column heading is clicked. *)
Lemma sort_by_keeps_rows_raw (col : column) (s : app) :
  allocated s ->
  exists s',
    sort_by iso col s = Ok s'
    /\ rows_raw s' = rows_raw s
    /\ heap s' !! rows_raw s' = heap s !! rows_raw s.
Proof.
  intros Hraw. unfold sort_by.
  set (s1 := with_current_sort _ s).
  destruct (apply_filter_returns s1) as (out & _ & ->).
  eexists. split; [reflexivity|]. cbn. split; [reflexivity|].
  apply lookup_insert_ne. exact (fresh_is_not_rows_raw s Hraw).
Qed.


(** *** The refresh timer *)

Lemma apply_filter_sched (s : app) :
  sched (state_of (apply_filter iso s)) = sched s.
Proof.
  destruct (apply_filter_returns s) as (out & _ & ->). reflexivity.
Qed.

Lemma append_rows_sched (coins : list Fetch.json) (s : app) :
  sched (state_of (append_rows coins s)) = sched s.
Proof.
  revert s. induction coins as [|coin coins IH]; intros s; cbn; [reflexivity|].
  destruct (row_of_coin coin); [|reflexivity]. now rewrite IH.
Qed.

(** [refresh] does not touch the scheduler, also when it raises. *)
Lemma refresh_sched (limit : option Z) (w : Fetch.get_result) (s : app) :
  sched (state_of (refresh iso limit w s)) = sched s.
Proof.
  unfold refresh. destruct limit as [n|]; [|reflexivity].
  destruct (Fetch.fetch_listings w) as [out shown].
  destruct out as [data|e]; [|reflexivity].
  unfold alloc. destruct (iterate data) as [coins|]; [|reflexivity].
  match goal with |- context [append_rows coins ?s1] =>
    pose proof (append_rows_sched coins s1) as HA;
    destruct (append_rows coins s1) as [s2|s2] end; cbn [bind state_of] in *.
  - now rewrite apply_filter_sched, HA.
  - exact HA.
Qed.

Lemma cancelled_timers (s : app) (id : nat) :
  one_timer s -> after_id s = Some id -> delete id (timers s) = ∅.
Proof.
  intros [H | (id' & ms & Ha & Ht)] A; rewrite ?H, ?Ht.
  - apply delete_empty.
  - assert (id' = id) as -> by congruence. apply delete_singleton_eq.
Qed.

(** What one [apply_auto_refresh] leaves. *)
Lemma apply_auto_refresh_leaves (auto : option Z) (s : app) :
  one_timer s ->
  let ms := match auto with Some ms => ms | None => 0 end in
  (0 < ms ->
   after_id (apply_auto_refresh auto s) = Some (next_after s)
   /\ timers (apply_auto_refresh auto s) = {[next_after s := ms]})
  /\ (ms <= 0 ->
      after_id (apply_auto_refresh auto s) = None
      /\ timers (apply_auto_refresh auto s) = ∅).
Proof.
  intros Inv ms. unfold apply_auto_refresh. fold ms.
  assert (Hclear :
    exists s1, (match after_id s with
                | Some id => with_after_id None (after_cancel id s)
                | None => s
                end) = s1
               /\ after_id s1 = None /\ timers s1 = ∅
               /\ next_after s1 = next_after s).
  { destruct (after_id s) as [id|] eqn:A.
    - eexists. split; [reflexivity|]. cbn.
      split; [reflexivity|]. split; [|reflexivity].
      now apply cancelled_timers.
    - exists s. split; [reflexivity|]. split; [exact A|]. split; [|reflexivity].
      destruct Inv as [H | (id' & ms' & Ha & _)]; [exact H | congruence]. }
  destruct Hclear as (s1 & -> & A1 & T1 & N1). split.
  - intros Hms. apply Z.ltb_lt in Hms. rewrite Hms. cbn.
    rewrite T1, N1. split; [reflexivity | apply insert_empty].
  - intros Hms. apply Z.ltb_ge in Hms. rewrite Hms. now split.
Qed.

Lemma apply_auto_refresh_one_timer (auto : option Z) (s : app) :
  one_timer s -> one_timer (apply_auto_refresh auto s).
Proof.
  intros Inv. destruct (apply_auto_refresh_leaves auto s Inv) as [Hpos Hneg].
  destruct (Z_lt_le_dec 0 (match auto with Some ms => ms | None => 0 end))
    as [L|L].
  - right. destruct (Hpos L) as [A T]. eauto.
  - left. now destruct (Hneg L).
Qed.

Lemma fire_one_timer (id : nat) (limit : option Z) (w : Fetch.get_result)
    (s : app) :
  one_timer s -> one_timer (state_of (fire iso id limit w s)).
Proof.
  intros Inv. unfold fire. destruct (timers s !! id) as [ms|] eqn:T; [|exact Inv].
  assert (Hdel : delete id (timers s) = ∅).
  { destruct Inv as [H | (id' & ms' & Ha & Ht)].
    - rewrite H. apply delete_empty.
    - rewrite Ht in T |- *. apply lookup_singleton_Some in T as [-> _].
      apply delete_singleton_eq. }
  pose proof (refresh_sched limit w (after_cancel id s)) as HS.
  destruct (refresh iso limit w (after_cancel id s)) as [s1|s1];
    cbn [bind state_of] in *; unfold sched in HS; cbn in HS;
    injection HS as HA HT HN.
  - right. exists (next_after s1), ms. cbn. split; [reflexivity|].
    rewrite HT, Hdel. apply insert_empty.
  - left. now rewrite HT.
Qed.

Lemma one_timer_sched (s s' : app) :
  sched s' = sched s -> one_timer s -> one_timer s'.
Proof.
  unfold sched, one_timer. intros [= -> -> _]. exact id.
Qed.

Lemma run_one_timer (evs : list event) (s : app) :
  one_timer s -> one_timer (run iso evs s).
Proof.
  revert s. induction evs as [|ev evs IH]; intros s Inv; [exact Inv|].
  cbn [run List.fold_left]. apply IH.
  destruct ev as [auto | id limit w | limit w | col | text]; cbn [step].
  - now apply apply_auto_refresh_one_timer.
  - now apply fire_one_timer.
  - eapply one_timer_sched; [apply refresh_sched | exact Inv].
  - eapply one_timer_sched; [|exact Inv].
    unfold sort_by. now rewrite apply_filter_sched.
  - eapply one_timer_sched; [|exact Inv].
    now rewrite apply_filter_sched.
Qed.

Lemma one_timer_pending (s : app) : one_timer s -> (pending s <= 1)%nat.
Proof.
  unfold pending. intros [H | (id & ms & _ & H)]; rewrite H.
  - rewrite map_size_empty. lia.
  - rewrite map_size_singleton. lia.
Qed.

(** *** [rows_raw] always names a list object *)

Lemma apply_filter_allocated (s : app) :
  allocated s -> allocated (state_of (apply_filter iso s)).
Proof.
  destruct (apply_filter_returns s) as (out & _ & ->).
  unfold allocated. cbn. intros H.
  apply lookup_insert_is_Some'. now right.
Qed.

Lemma append_rows_allocated (coins : list Fetch.json) (s : app) :
  allocated s -> allocated (state_of (append_rows coins s)).
Proof.
  revert s. induction coins as [|coin coins IH]; intros s H; cbn; [exact H|].
  destruct (row_of_coin coin); [|exact H].
  apply IH. unfold allocated. cbn. rewrite lookup_insert_eq. eauto.
Qed.

Lemma refresh_allocated (limit : option Z) (w : Fetch.get_result) (s : app) :
  allocated s -> allocated (state_of (refresh iso limit w s)).
Proof.
  intros H. unfold refresh. destruct limit as [n|]; [|exact H].
  destruct (Fetch.fetch_listings w) as [out shown].
  destruct out as [data|e]; [|exact H].
  unfold alloc.
  match goal with |- context [with_rows_raw ?l (with_heap ?h ?s0)] =>
    assert (H1 : allocated (with_rows_raw l (with_heap h s0)))
      by (unfold allocated; cbn; rewrite lookup_insert_eq; eauto) end.
  destruct (iterate data) as [coins|]; [|exact H1].
  match goal with |- context [append_rows coins ?s1] =>
    pose proof (append_rows_allocated coins s1 H1) as HA;
    destruct (append_rows coins s1) as [s2|s2] end; cbn [bind state_of] in *.
  - now apply apply_filter_allocated.
  - exact HA.
Qed.

Lemma run_allocated (evs : list event) (s : app) :
  allocated s -> allocated (run iso evs s).
Proof.
  revert s. induction evs as [|ev evs IH]; intros s H; [exact H|].
  cbn [run List.fold_left]. apply IH.
  destruct ev as [auto | id limit w | limit w | col | text]; cbn [step].
  - unfold apply_auto_refresh, after, after_cancel.
    destruct (after_id s); destruct (0 <? _)%Z; exact H.
  - unfold fire. destruct (timers s !! id) as [ms|]; [|exact H].
    pose proof (refresh_allocated limit w (after_cancel id s) H) as HR.
    destruct (refresh iso limit w (after_cancel id s)); exact HR.
  - now apply refresh_allocated.
  - unfold sort_by. now apply apply_filter_allocated.
  - now apply apply_filter_allocated.
Qed.

(** C5: after [__init__], whatever calls of [apply_auto_refresh], timer
    firings and other events follow, at most one timer is pending. From such a state, a call
    with an interval that is not positive, or with a text that is not an
    integer, leaves no pending timer and [_after_id] at [None]; a call with
    60000 followed by a call with 30000 leaves exactly one pending timer,
    of 30000 ms, which [_after_id] names. *)
Theorem scheduler_has_one_timer (evs : list event) (s0 : app) :
  started s0 ->
  (pending (run iso evs s0) <= 1)%nat
  /\ (forall ms, ms <= 0 ->
      timers (apply_auto_refresh (Some ms) (run iso evs s0)) = ∅
      /\ after_id (apply_auto_refresh (Some ms) (run iso evs s0)) = None)
  /\ (timers (apply_auto_refresh None (run iso evs s0)) = ∅
      /\ after_id (apply_auto_refresh None (run iso evs s0)) = None)
  /\ (exists id,
        timers (apply_auto_refresh (Some 30000)
                  (apply_auto_refresh (Some 60000) (run iso evs s0)))
        = {[id := 30000]}
        /\ after_id (apply_auto_refresh (Some 30000)
                       (apply_auto_refresh (Some 60000) (run iso evs s0)))
           = Some id
        /\ pending (apply_auto_refresh (Some 30000)
                      (apply_auto_refresh (Some 60000) (run iso evs s0)))
           = 1%nat).
Proof.
  intros [_ Ht].
  assert (Inv : one_timer (run iso evs s0)) by (apply run_one_timer; now left).
  split; [now apply one_timer_pending|]. split; [|split].
  - intros ms Hms.
    destruct (apply_auto_refresh_leaves (Some ms) _ Inv) as [_ H].
    destruct (H Hms) as [A T]. now split.
  - destruct (apply_auto_refresh_leaves None _ Inv) as [_ H].
    destruct (H ltac:(lia)) as [A T]. now split.
  - pose proof (apply_auto_refresh_one_timer (Some 60000) _ Inv) as Inv1.
    destruct (apply_auto_refresh_leaves (Some 30000) _ Inv1) as [H _].
    destruct (H ltac:(lia)) as [A T].
    eexists. split; [exact T|]. split; [exact A|].
    unfold pending. rewrite T. apply map_size_singleton.
Qed.

End WithRenderer.

(** Two calls in a row on the fresh window: the first timer is gone, the
    second one is pending. *)
Example two_configures :
  sched (apply_auto_refresh (Some 30000)
           (apply_auto_refresh (Some 60000) init_app))
  = (Some 1%nat, {[1%nat := 30000]}, 2%nat).
Proof. vm_compute. reflexivity. Qed.

Lemma sort_by_toggles_witness :
  current_sort init_app = (Rank, false)
  /\ (exists s', sort_by (fun _ => None) Rank init_app = Ok s'
                 /\ current_sort s' = (Rank, true))
  /\ (exists s', sort_by (fun _ => None) Symbol init_app = Ok s'
                 /\ current_sort s' = (Symbol, false)).
Proof.
  split; [reflexivity|]. split.
  - destruct (sort_by_toggles (fun _ => None) init_app Rank Rank false eq_refl)
      as (s' & H & Hsame & _).
    exists s'. split; [exact H | exact (Hsame eq_refl)].
  - destruct (sort_by_toggles (fun _ => None) init_app Symbol Rank false eq_refl)
      as (s' & H & _ & Hother).
    exists s'. split; [exact H|]. apply Hother. discriminate.
Defined.

Lemma apply_filter_keeps_rows_raw_witness :
  allocated demo_app
  /\ exists s',
       apply_filter (fun _ => None) demo_app = Ok s'
       /\ rows_raw s' = rows_raw demo_app
       /\ heap s' !! rows_raw s' = heap demo_app !! rows_raw demo_app.
Proof.
  assert (H : allocated demo_app).
  { eexists. vm_compute. reflexivity. }
  split; [exact H|].
  destruct (apply_filter_keeps_rows_raw (fun _ => None) demo_app H)
    as (s' & out & Hs & Hr & Hh & _).
  exists s'. split; [exact Hs|]. split; [exact Hr | exact Hh].
Defined.


Lemma scheduler_has_one_timer_witness :
  started init_app
  /\ Nat.le
       (pending (run (fun _ => None)
                   [Configure (Some 60000); Configure (Some 30000);
                    Fire 1%nat (Some 200) (Fetch.GetRaises false "timeout");
                    Heading Price; Configure None]
                   init_app)) 1%nat.
Proof.
  assert (H : started init_app) by (split; reflexivity).
  split; [exact H|].
  exact (proj1 (scheduler_has_one_timer (fun _ => None)
                  [Configure (Some 60000); Configure (Some 30000);
                   Fire 1%nat (Some 200) (Fetch.GetRaises false "timeout");
                   Heading Price; Configure None]
                  init_app H)).
Defined.

End Window.

(** ** [fetch_listings] *)

Module FetchFacts.
Import Fetch.
Local Open Scope string_scope.

(** No exception leaves [fetch_listings], whatever the network does. *)
Lemma fetch_listings_returns (w : get_result) :
  exists v, fst (fetch_listings w) = Returned v.
Proof.
  unfold fetch_listings.
  destruct (try_body w) as [r [[msg|msg]|v]]; cbn; eauto.
Qed.




End FetchFacts.

(* ===================================================================== *)
(** * Further properties of the code *)
(* ===================================================================== *)

(** ** The search box *)

Module Search.
Import PyStr App.
Local Open Scope string_scope.







(** A string whose first character, if any, is not a space. *)
Lemma lstrip_fixed (s : string) :
  match s with EmptyString => True | String c _ => is_space c = false end ->
  lstrip s = s.
Proof. destruct s as [|c s]; cbn; [reflexivity|]. now intros ->. Qed.

Lemma lstrip_head (s : string) :
  match lstrip s with EmptyString => True | String c _ => is_space c = false end.
Proof.
  induction s as [|c s IH]; cbn; [exact I|].
  destruct (is_space c) eqn:E; [exact IH | exact E].
Qed.

Lemma rstrip_head (s : string) :
  match s with EmptyString => True | String c _ => is_space c = false end ->
  match rstrip s with EmptyString => True | String c _ => is_space c = false end.
Proof.
  destruct s as [|c s]; cbn; [trivial|]. intros E.
  destruct (rstrip s); [rewrite E|]; exact E.
Qed.

Lemma rstrip_idem (s : string) : rstrip (rstrip s) = rstrip s.
Proof.
  induction s as [|c s IH]; cbn; [reflexivity|].
  destruct (rstrip s) as [|d t] eqn:R.
  - destruct (is_space c) eqn:E; cbn; [reflexivity|]. now rewrite E.
  - cbn. cbn in IH. destruct (rstrip t) eqn:R'.
    + destruct (is_space d); [discriminate IH|]. now rewrite IH.
    + now rewrite IH.
Qed.

Lemma strip_idem (s : string) : strip (strip s) = strip s.
Proof.
  unfold strip. rewrite (lstrip_fixed (rstrip (lstrip s))).
  - apply rstrip_idem.
  - apply rstrip_head, lstrip_head.
Qed.


Lemma query_of_strip (s : string) : query_of (strip s) = query_of s.
Proof. unfold query_of. now rewrite strip_idem. Qed.

(** *** [needle in hay] is the substring relation *)

Lemma prefix_split (q h : string) :
  String.prefix q h = true <-> exists b, h = String.append q b.
Proof.
  revert h. induction q as [|c q IH]; intros h.
  - split; [intros _; exists h; reflexivity|]. intros _. now destruct h.
  - destruct h as [|d h]; cbn.
    + split; [discriminate | intros [b [=]]].
    + destruct (ascii_dec c d) as [->|N].
      * rewrite IH. split; intros [b E]; exists b; [now rewrite E | now injection E].
      * split; [discriminate|]. intros [b E]. injection E as E1 _. now destruct N.
Qed.

Lemma contains_split (q h : string) :
  contains q h = true <->
  exists a b, h = String.append a (String.append q b).
Proof.
  split.
  - induction h as [|d h IH]; cbn [contains]; rewrite orb_true_iff.
    + intros [P|F]; [|discriminate F].
      apply prefix_split in P as [b E]. exists EmptyString, b. exact E.
    + intros [P|C].
      * apply prefix_split in P as [b E]. exists EmptyString, b. exact E.
      * destruct (IH C) as (a & b & E). exists (String d a), b. simpl. now rewrite E.
  - intros (a & b & ->). apply PyStrFacts.contains_middle.
Qed.

Lemma append_assoc (a b c : string) :
  String.append (String.append a b) c = String.append a (String.append b c).
Proof.
  induction a as [|x a IH]; [reflexivity|]. exact (f_equal (String x) IH).
Qed.

Lemma contains_trans (p q h : string) :
  contains p q = true -> contains q h = true -> contains p h = true.
Proof.
  rewrite !contains_split. intros (a & b & ->) (a' & b' & ->).
  exists (String.append a' a), (String.append b b').
  now rewrite !append_assoc.
Qed.

Lemma contains_empty_hay (q : string) :
  contains q EmptyString = true -> q = EmptyString.
Proof. destruct q; cbn; [reflexivity | discriminate]. Qed.

(** A row that matches a query matches every part of that query. *)
Lemma matches_narrow (q1 q2 : string) (r : row) :
  contains q1 q2 = true -> matches q2 r = true -> matches q1 r = true.
Proof.
  intros C M. unfold matches in *.
  destruct q1 as [|c1 q1]; [reflexivity|].
  destruct q2 as [|c2 q2]; [discriminate (contains_empty_hay _ C)|].
  cbn [truthy negb] in *. eapply contains_trans; eassumption.
Qed.









(** X3: a longer query never shows more: when the query of one search
    text occurs inside the query of another, every row shown for the
    second is shown for the first. *)
Theorem longer_query_narrows (s1 s2 : string) (sort : column * bool)
    (rows : list row) :
  contains (query_of s1) (query_of s2) = true ->
  exists out1 out2,
    visible s1 sort rows = Some out1
    /\ visible s2 sort rows = Some out2
    /\ (forall r, In r out2 -> In r out1)
    /\ (List.length out2 <= List.length out1)%nat.
Proof.
  intros C.
  destruct (Pipeline.filter_matching_perm s1 sort rows) as (out1 & H1 & P1).
  destruct (Pipeline.filter_matching_perm s2 sort rows) as (out2 & H2 & P2).
  exists out1, out2. split; [exact H1|]. split; [exact H2|]. split.
  - intros r Hin. apply (Permutation_in _ P2) in Hin.
    apply List.filter_In in Hin as [Hin M].
    apply (Permutation_in _ (Permutation_sym P1)).
    apply List.filter_In. split; [exact Hin|].
    eapply matches_narrow; eassumption.
  - rewrite (Permutation_length P1), (Permutation_length P2).
    clear - C. induction rows as [|r rows IH]; cbn; [lia|].
    destruct (matches (query_of s2) r) eqn:M2.
    + rewrite (matches_narrow _ _ r C M2). cbn. lia.
    + destruct (matches (query_of s1) r); cbn; lia.
Qed.

Lemma longer_query_narrows_witness :
  exists out1 out2,
    visible "bit" (Rank, false)
      [named (Some "BTC") (Some "Bitcoin"); named (Some "BCH") (Some "Bitcoin Cash")]
    = Some out1
    /\ visible "bitcoin c" (Rank, false)
         [named (Some "BTC") (Some "Bitcoin"); named (Some "BCH") (Some "Bitcoin Cash")]
       = Some out2
    /\ (forall r, In r out2 -> In r out1)
    /\ (List.length out2 <= List.length out1)%nat.
Proof.
  apply longer_query_narrows. vm_compute. reflexivity.
Defined.

End Search.

(** ** The order of the rows *)

Module Ordering.
Import PySort App.

Section Fixed.
Context {A : Type} (ltb : A -> A -> bool).

(** Insertion leaves a list that is in order as it is. *)
Lemma sort_total_fixed (l : list A) :
  StronglySorted (fun a b => ltb b a = false) l -> sort_total ltb l = l.
Proof.
  induction 1 as [|a l S IH Ha]; [reflexivity|].
  cbn [sort_total List.fold_right]. fold (sort_total ltb l). rewrite IH.
  destruct Ha as [|b l Hb _]; [reflexivity|]. cbn. now rewrite Hb.
Qed.

Hypothesis asym : forall a b, ltb a b = true -> ltb b a = false.
Hypothesis negtrans :
  forall x y z, ltb y x = false -> ltb z y = false -> ltb z x = false.

Lemma list_sort_total_idem (reverse : bool) (l : list A) :
  list_sort_total ltb reverse (list_sort_total ltb reverse l)
  = list_sort_total ltb reverse l.
Proof.
  unfold list_sort_total. destruct reverse.
  - rewrite rev_involutive. f_equal.
    apply sort_total_fixed, PySortFacts.sort_total_sorted; assumption.
  - apply sort_total_fixed, PySortFacts.sort_total_sorted; assumption.
Qed.
End Fixed.


(** X5: sorting rows that are already sorted by the same column in the
    same direction changes nothing. *)
Theorem sort_twice_is_sort_once (col : column) (desc : bool)
    (l out : list row) :
  sort_rows col desc l = Some out ->
  sort_rows col desc out = Some out.
Proof.
  rewrite !RowFacts.sort_rows_total. intros [= <-]. f_equal.
  apply list_sort_total_idem.
  - apply RowFacts.row_ltb_asym.
  - apply RowFacts.row_ltb_negtrans.
Qed.

Lemma sort_twice_is_sort_once_witness :
  sort_rows Price true
    [priced None; priced (Some (PyNum.PyInt 5)); priced (Some (PyNum.PyInt 3))]
  = Some [priced None; priced (Some (PyNum.PyInt 5)); priced (Some (PyNum.PyInt 3))].
Proof.
  apply (sort_twice_is_sort_once Price true
           [priced (Some (PyNum.PyInt 3)); priced None; priced (Some (PyNum.PyInt 5))]).
  vm_compute. reflexivity.
Defined.

End Ordering.

(** ** Repainting the tree *)

Module Repaint.
Import App.

Section WithRenderer.
Variable iso : string -> option string.

(** What [apply_filter] leaves, field by field. *)
Lemma apply_filter_leaves (s : app) :
  exists out s',
    visible (search_var s) (current_sort s) (deref (heap s) (rows_raw s))
    = Some out
    /\ apply_filter iso s = Ok s'
    /\ tree s' = List.map (render iso) out
    /\ search_var s' = search_var s
    /\ current_sort s' = current_sort s
    /\ rows_raw s' = rows_raw s
    /\ dialogs s' = dialogs s
    /\ (allocated s ->
        allocated s'
        /\ deref (heap s') (rows_raw s') = deref (heap s) (rows_raw s)).
Proof.
  destruct (Window.apply_filter_returns iso s) as (out & Hv & Hs).
  exists out. eexists. split; [exact Hv|]. split; [exact Hs|]. cbn.
  repeat (split; [reflexivity|]).
  intros Hraw. pose proof (Window.fresh_is_not_rows_raw s Hraw) as Hne.
  unfold allocated, deref. cbn. rewrite lookup_insert_ne by exact Hne.
  split; [exact Hraw | reflexivity].
Qed.

(** X6: the tree holds one item for each row of [rows_raw] that matches
    the search text, whatever the sort: [apply_filter] and a click on any
    column heading leave a permutation of the rendered matching rows, so a
    click on a heading only reorders the items. *)
Theorem tree_shows_the_matching_rows (col : column) (s : app) :
  exists s1 s2,
    apply_filter iso s = Ok s1
    /\ sort_by iso col s = Ok s2
    /\ Permutation (tree s1)
         (List.map (render iso)
            (List.filter (matches (query_of (search_var s)))
               (deref (heap s) (rows_raw s))))
    /\ Permutation (tree s2) (tree s1).
Proof.
  destruct (apply_filter_leaves s) as (out1 & s1 & Hv1 & H1 & T1 & _).
  unfold sort_by.
  destruct (apply_filter_leaves
              (with_current_sort
                 (col, if column_eqb col (fst (current_sort s))
                       then negb (snd (current_sort s)) else false) s))
    as (out2 & s2 & Hv2 & H2 & T2 & _).
  cbn in Hv2.
  exists s1, s2. split; [exact H1|]. split; [exact H2|].
  destruct (Pipeline.filter_matching_perm (search_var s) (current_sort s)
              (deref (heap s) (rows_raw s))) as (o1 & E1 & P1).
  destruct (Pipeline.filter_matching_perm (search_var s)
              (col, if column_eqb col (fst (current_sort s))
                    then negb (snd (current_sort s)) else false)
              (deref (heap s) (rows_raw s))) as (o2 & E2 & P2).
  rewrite Hv1 in E1. injection E1 as <-.
  rewrite Hv2 in E2. injection E2 as <-.
  rewrite T1, T2. split.
  - now apply Permutation_map.
  - apply Permutation_map. now rewrite P1, P2.
Qed.

(** X7: repainting twice is repainting once: a second [apply_filter]
    with nothing changed in between leaves the same tree and the same
    [rows_raw]. *)
Theorem apply_filter_twice (s : app) :
  allocated s ->
  exists s1 s2,
    apply_filter iso s = Ok s1
    /\ apply_filter iso s1 = Ok s2
    /\ tree s2 = tree s1
    /\ deref (heap s2) (rows_raw s2) = deref (heap s) (rows_raw s).
Proof.
  intros Hraw.
  destruct (apply_filter_leaves s)
    as (out1 & s1 & Hv1 & H1 & T1 & Q1 & C1 & R1 & _ & F1).
  destruct (F1 Hraw) as [Hraw1 D1].
  destruct (apply_filter_leaves s1)
    as (out2 & s2 & Hv2 & H2 & T2 & _ & _ & _ & _ & F2).
  destruct (F2 Hraw1) as [_ D2].
  exists s1, s2. split; [exact H1|]. split; [exact H2|].
  rewrite Q1, C1, D1, Hv1 in Hv2. injection Hv2 as <-.
  split; [now rewrite T1, T2 | now rewrite D2, D1].
Qed.

(** X8: two clicks on the heading of the current sort column restore the
    sort state, and the tree is the one that [apply_filter] paints for that
    state. *)
Theorem sort_by_twice (s : app) :
  allocated s ->
  exists s0 s1 s2,
    apply_filter iso s = Ok s0
    /\ sort_by iso (fst (current_sort s)) s = Ok s1
    /\ sort_by iso (fst (current_sort s)) s1 = Ok s2
    /\ current_sort s1 = (fst (current_sort s), negb (snd (current_sort s)))
    /\ current_sort s2 = current_sort s
    /\ tree s2 = tree s0.
Proof.
  intros Hraw. destruct (current_sort s) as [K d] eqn:HS. cbn [fst snd].
  destruct (apply_filter_leaves s) as (out0 & s0 & Hv0 & H0 & T0 & _).
  destruct (apply_filter_leaves (with_current_sort (K, negb d) s))
    as (out1 & s1 & Hv1 & H1 & T1 & Q1 & C1 & R1 & _ & F1).
  destruct (F1 Hraw) as [Hraw1 D1]. cbn in C1, Q1, D1.
  destruct (apply_filter_leaves (with_current_sort (K, d) s1))
    as (out2 & s2 & Hv2 & H2 & T2 & _ & C2 & _).
  cbn in Hv2, C2.
  assert (E1 : sort_by iso K s = Ok s1).
  { unfold sort_by. rewrite HS. cbn [fst snd].
    now rewrite (proj2 (Window.column_eqb_eq K K) eq_refl). }
  assert (E2 : sort_by iso K s1 = Ok s2).
  { unfold sort_by. rewrite C1. cbn [fst snd].
    now rewrite (proj2 (Window.column_eqb_eq K K) eq_refl), negb_involutive. }
  exists s0, s1, s2. split; [exact H0|]. split; [exact E1|]. split; [exact E2|].
  split; [exact C1|]. split; [exact C2|].
  rewrite Q1, D1 in Hv2. rewrite HS, Hv2 in Hv0. injection Hv0 as <-.
  now rewrite T0, T2.
Qed.

End WithRenderer.

Lemma apply_filter_twice_witness :
  exists s1 s2,
    apply_filter (fun _ => None) demo_app = Ok s1
    /\ apply_filter (fun _ => None) s1 = Ok s2
    /\ tree s2 = tree s1
    /\ deref (heap s2) (rows_raw s2) = deref (heap demo_app) (rows_raw demo_app).
Proof.
  apply apply_filter_twice. eexists. vm_compute. reflexivity.
Defined.

Lemma sort_by_twice_witness :
  exists s0 s1 s2,
    apply_filter (fun _ => None) demo_app = Ok s0
    /\ sort_by (fun _ => None) Price demo_app = Ok s1
    /\ sort_by (fun _ => None) Price s1 = Ok s2
    /\ current_sort s1 = (Price, true)
    /\ current_sort s2 = (Price, false)
    /\ tree s2 = tree s0.
Proof.
  apply (sort_by_twice (fun _ => None) demo_app). eexists. vm_compute. reflexivity.
Defined.

End Repaint.

(** ** [refresh] *)

Module RefreshFacts.
Import App.
Local Open Scope string_scope.

(** A failed fetch hands the empty list to its caller. *)
Lemma failure_returns_empty_list (w : Fetch.get_result) :
  Fetch.failure w -> fst (Fetch.fetch_listings w) = Fetch.Returned (Fetch.JList []).
Proof.
  intros F. unfold Fetch.fetch_listings.
  destruct F as [b msg | r msg H | r msg H B | r j H B NJ | r items H B D];
    cbn [Fetch.try_body].
  - now destruct b.
  - now rewrite H.
  - now rewrite H, B.
  - rewrite H, B. destruct j; try reflexivity. now destruct (NJ items).
  - now rewrite H, B, D.
Qed.

(** The loop of [refresh] on coins that all give a row: the rows are put
    at the end of [rows_raw], in order, and nothing else changes. *)
Lemma append_rows_good (coins : list Fetch.json) (rows : list row) (s : app) :
  Forall2 (fun coin r => row_of_coin coin = Some r) coins rows ->
  exists h,
    (forall rest, append_rows (coins ++ rest) s = append_rows rest (with_heap h s))
    /\ deref h (rows_raw s) = (deref (heap s) (rows_raw s) ++ rows)%list
    /\ (forall l, l <> rows_raw s -> h !! l = heap s !! l)
    /\ (allocated s -> is_Some (h !! rows_raw s)).
Proof.
  intros F. revert s. induction F as [|coin r coins rows Hr F IH]; intros s.
  - exists (heap s). split; [intros rest; now destruct s|].
    split; [now rewrite app_nil_r|]. split; [reflexivity | exact id].
  - destruct (IH (with_heap
                    (<[rows_raw s := (deref (heap s) (rows_raw s) ++ [r])%list]>
                       (heap s)) s))
      as (h & Hrun & Hd & Hf & Ha).
    cbn in Hrun, Hd, Hf, Ha.
    exists h. split; [|split; [|split]].
    + intros rest. cbn. rewrite Hr. apply Hrun.
    + rewrite Hd. unfold deref at 1. rewrite lookup_insert_eq. cbn.
      now rewrite <- app_assoc.
    + intros l Hl. rewrite (Hf l Hl). now apply lookup_insert_ne.
    + intros _. apply Ha. unfold allocated. cbn. rewrite lookup_insert_eq. eauto.
Qed.

(** The loop in general: whether it ends or raises, only the list object
    of [rows_raw] changes. *)
Lemma append_rows_frame (coins : list Fetch.json) (s : app) :
  exists h,
    state_of (append_rows coins s) = with_heap h s
    /\ (forall l, l <> rows_raw s -> h !! l = heap s !! l)
    /\ (allocated s -> is_Some (h !! rows_raw s)).
Proof.
  revert s. induction coins as [|coin coins IH]; intros s.
  - exists (heap s). split; [now destruct s|]. split; [reflexivity | exact id].
  - cbn. destruct (row_of_coin coin) as [r|].
    + destruct (IH (with_heap
                      (<[rows_raw s := (deref (heap s) (rows_raw s) ++ [r])%list]>
                         (heap s)) s))
        as (h & Hs & Hf & Ha).
      cbn in Hs, Hf, Ha. exists h. split; [exact Hs|]. split.
      * intros l Hl. rewrite (Hf l Hl). now apply lookup_insert_ne.
      * intros _. apply Ha. unfold allocated. cbn. rewrite lookup_insert_eq. eauto.
    + exists (heap s). split; [now destruct s|]. split; [reflexivity | exact id].
Qed.

Lemma fresh_not_allocated (h : gmap nat (list row)) (l : nat) :
  is_Some (h !! l) -> l <> fresh (dom h).
Proof.
  intros H E. apply (is_fresh (dom h)). rewrite <- E. now apply elem_of_dom.
Qed.

Section WithRenderer.
Variable iso : string -> option string.

Lemma refresh_shows_rows_of (n : Z) (w : Fetch.get_result)
    (data : Fetch.json) (shown : list Fetch.dialog)
    (coins : list Fetch.json) (rows : list row) (s : app) :
  Fetch.fetch_listings w = (Fetch.Returned data, shown) ->
  iterate data = Some coins ->
  Forall2 (fun coin r => row_of_coin coin = Some r) coins rows ->
  exists s' out,
    refresh iso (Some n) w s = Ok s'
    /\ deref (heap s') (rows_raw s') = rows
    /\ visible (search_var s) (current_sort s) rows = Some out
    /\ tree s' = List.map (render iso) out
    /\ dialogs s' = (dialogs s ++ shown)%list
    /\ heap s !! rows_raw s' = None
    /\ (forall l, is_Some (heap s !! l) -> heap s' !! l = heap s !! l).
Proof.
  intros Hf Hi F. unfold refresh. rewrite Hf, Hi. unfold alloc.
  set (l := fresh (dom (heap (show shown s)))).
  set (s2 := with_rows_raw l _).
  assert (Hl : heap s !! l = None).
  { apply not_elem_of_dom. exact (is_fresh (dom (heap s))). }
  assert (H2 : deref (heap s2) (rows_raw s2) = []).
  { unfold s2, deref. cbn. now rewrite lookup_insert_eq. }
  assert (Hal2 : allocated s2).
  { unfold s2, allocated. cbn. rewrite lookup_insert_eq. eauto. }
  destruct (append_rows_good coins rows s2 F) as (h & Hrun & Hd & Hfr & Ha).
  specialize (Hrun []). rewrite app_nil_r in Hrun. cbn [append_rows] in Hrun.
  rewrite Hrun. cbn [bind]. rewrite H2 in Hd.
  change ([] ++ rows)%list with rows in Hd.
  assert (Hal : is_Some (h !! l)) by exact (Ha Hal2).
  destruct (Window.apply_filter_returns iso (with_heap h s2)) as (out & Hv & ->).
  change (rows_raw (with_heap h s2)) with l in Hv.
  change (heap (with_heap h s2)) with h in Hv |- *.
  change (rows_raw s2) with l in Hd, Hfr.
  rewrite Hd in Hv.
  eexists. exists out. split; [reflexivity|].
  change (deref (<[fresh (dom h) := out]> h) l = rows
          /\ visible (search_var s) (current_sort s) rows = Some out
          /\ List.map (render iso) out = List.map (render iso) out
          /\ (dialogs s ++ shown)%list = (dialogs s ++ shown)%list
          /\ heap s !! l = None
          /\ (forall l0, is_Some (heap s !! l0) ->
                          <[fresh (dom h) := out]> h !! l0 = heap s !! l0)).
  split.
  { unfold deref. rewrite lookup_insert_ne.
    - exact Hd.
    - apply not_eq_sym, fresh_not_allocated. exact Hal. }
  split; [exact Hv|]. split; [reflexivity|]. split; [reflexivity|].
  split; [exact Hl|].
  intros l' Hl'.
  assert (Hne : l' <> l) by (intros ->; rewrite Hl in Hl'; now destruct Hl').
  assert (Hh : h !! l' = heap s !! l').
  { rewrite (Hfr l' Hne). unfold s2. cbn. now apply lookup_insert_ne. }
  rewrite lookup_insert_ne; [exact Hh|].
  apply not_eq_sym, fresh_not_allocated. now rewrite Hh.
Qed.


Lemma refresh_after_failure_clears_of (n : Z) (w : Fetch.get_result) (s : app) :
  Fetch.failure w ->
  exists s',
    refresh iso (Some n) w s = Ok s'
    /\ deref (heap s') (rows_raw s') = []
    /\ tree s' = []
    /\ dialogs s' = (dialogs s ++ snd (Fetch.fetch_listings w))%list.
Proof.
  intros F.
  destruct (Fetch.fetch_listings w) as [out shown] eqn:E.
  pose proof (failure_returns_empty_list w F) as H. rewrite E in H. cbn in H.
  subst out.
  destruct (refresh_shows_rows_of n w (Fetch.JList []) shown [] [] s
              E eq_refl (List.Forall2_nil _))
    as (s' & out & Hr & Hd & Hv & Ht & Hdi & _).
  exists s'. split; [exact Hr|]. split; [exact Hd|]. split; [|exact Hdi].
  rewrite Ht. destruct (Pipeline.filter_matching_perm (search_var s)
                          (current_sort s) []) as (o & Ho & P).
  rewrite Hv in Ho. injection Ho as <-. cbn in P.
  apply Permutation_sym, Permutation_nil in P. now rewrite P.
Qed.

(** X10: after a failed fetch with a valid limit, [refresh] returns with
    an empty [rows_raw] and an empty tree, whatever was shown before; the
    dialogs of the fetch are the only ones added. *)
Theorem refresh_after_failure_clears (n : Z) (w : Fetch.get_result) (s : app) :
  Fetch.failure w ->
  exists s',
    refresh iso (Some n) w s = Ok s'
    /\ deref (heap s') (rows_raw s') = []
    /\ tree s' = []
    /\ dialogs s' = (dialogs s ++ snd (Fetch.fetch_listings w))%list.
Proof. apply refresh_after_failure_clears_of. Qed.

(** X11: when a coin of the payload is not an object, or its quote is
    not one, the exception leaves [refresh] in the middle of the loop:
    [rows_raw] holds the rows of the coins before it and the tree is not
    repainted. *)
Theorem refresh_stops_at_bad_coin (n : Z) (w : Fetch.get_result)
    (data bad : Fetch.json) (shown : list Fetch.dialog)
    (good rest : list Fetch.json) (rows : list row) (s : app) :
  Fetch.fetch_listings w = (Fetch.Returned data, shown) ->
  iterate data = Some (good ++ bad :: rest)%list ->
  Forall2 (fun coin r => row_of_coin coin = Some r) good rows ->
  row_of_coin bad = None ->
  exists s',
    refresh iso (Some n) w s = Exn s'
    /\ deref (heap s') (rows_raw s') = rows
    /\ heap s !! rows_raw s' = None
    /\ tree s' = tree s.
Proof.
  intros Hf Hi F Hbad. unfold refresh. rewrite Hf, Hi. unfold alloc.
  set (l := fresh (dom (heap (show shown s)))).
  set (s2 := with_rows_raw l _).
  assert (H2 : deref (heap s2) (rows_raw s2) = []).
  { unfold s2, deref. cbn. now rewrite lookup_insert_eq. }
  destruct (append_rows_good good rows s2 F) as (h & Hrun & Hd & _).
  rewrite (Hrun (bad :: rest)). cbn [append_rows]. rewrite Hbad. cbn [bind].
  rewrite H2 in Hd. change ([] ++ rows)%list with rows in Hd.
  eexists. split; [reflexivity|]. split; [exact Hd|]. split; [|reflexivity].
  apply not_elem_of_dom. exact (is_fresh (dom (heap s))).
Qed.

(** X12: when the payload has something under ["data"] that cannot be
    iterated ([null], a number, a boolean), [fetch_listings] hands it over
    and the [for] loop raises: the exception leaves [refresh] with
    [rows_raw] already emptied and the tree not repainted. *)
Theorem refresh_raises_on_data_not_iterable (n : Z) (w : Fetch.get_result)
    (data : Fetch.json) (shown : list Fetch.dialog) (s : app) :
  Fetch.fetch_listings w = (Fetch.Returned data, shown) ->
  iterate data = None ->
  exists s',
    refresh iso (Some n) w s = Exn s'
    /\ deref (heap s') (rows_raw s') = []
    /\ tree s' = tree s
    /\ dialogs s' = (dialogs s ++ shown)%list.
Proof.
  intros Hf Hi. unfold refresh. rewrite Hf, Hi. unfold alloc.
  eexists. split; [reflexivity|]. cbn. unfold deref.
  now rewrite lookup_insert_eq.
Qed.

(** The state that [refresh] leaves after the request, whether it
    returns or raises: the fields it does not assign are those of the state
    before, and the heap differs only at the new list objects. *)
Lemma refresh_leaves (n : Z) (w : Fetch.get_result) (s : app) :
  exists h l t,
    state_of (refresh iso (Some n) w s)
    = with_tree t
        (with_rows_raw l
           (with_heap h (show (snd (Fetch.fetch_listings w)) s)))
    /\ (forall l', is_Some (heap s !! l') -> h !! l' = heap s !! l').
Proof.
  unfold refresh. destruct (Fetch.fetch_listings w) as [out shown].
  destruct out as [data|e]; cbn [snd].
  2:{ exists (heap s), (rows_raw s), (tree s). split; [now destruct s|reflexivity]. }
  unfold alloc. set (l := fresh (dom (heap (show shown s)))).
  assert (Hl : forall l', is_Some (heap s !! l') -> l' <> l).
  { intros l' H ->. apply (is_fresh (dom (heap s))). now apply elem_of_dom. }
  destruct (iterate data) as [coins|].
  2:{ exists (<[l:=[]]> (heap s)), l, (tree s). split; [reflexivity|].
      intros l' H. apply lookup_insert_ne, not_eq_sym, Hl, H. }
  match goal with |- context [append_rows coins ?s2] =>
    destruct (append_rows_frame coins s2) as (h & Hs & Hfr & _);
    destruct (append_rows coins s2) as [s3|s3] end;
    cbn [state_of] in Hs; subst s3; cbn [bind rows_raw with_rows_raw] in *.
  - destruct (Window.apply_filter_returns iso
                (with_heap h (with_rows_raw l
                   (with_heap (<[l:=[]]> (heap (show shown s))) (show shown s)))))
      as (o & _ & ->).
    cbn [state_of].
    exists (<[fresh (dom h) := o]> h), l, (List.map (render iso) o).
    split; [reflexivity|].
    intros l' H.
    assert (Hh : h !! l' = heap s !! l').
    { rewrite (Hfr l' (Hl l' H)). cbn. apply lookup_insert_ne, not_eq_sym, Hl, H. }
    rewrite lookup_insert_ne; [exact Hh|].
    apply not_eq_sym, fresh_not_allocated. now rewrite Hh.
  - cbn [state_of]. exists h, l, (tree s). split; [reflexivity|].
    intros l' H. rewrite (Hfr l' (Hl l' H)). cbn.
    apply lookup_insert_ne, not_eq_sym, Hl, H.
Qed.

(** X13: [refresh] never touches the search text, the sort state or the
    timer, and never changes a list object that exists when it is called,
    whether it returns or raises; with a limit that is not an integer it
    makes no request and only shows the "Input Error" dialog. *)
Theorem refresh_frame (limit : option Z) (w : Fetch.get_result) (s : app) :
  search_var (state_of (refresh iso limit w s)) = search_var s
  /\ current_sort (state_of (refresh iso limit w s)) = current_sort s
  /\ sched (state_of (refresh iso limit w s)) = sched s
  /\ (forall l, is_Some (heap s !! l) ->
                heap (state_of (refresh iso limit w s)) !! l = heap s !! l)
  /\ refresh iso None w s
     = Ok (show [Fetch.Dialog "Input Error" "Limit must be an integer."] s).
Proof.
  destruct limit as [n|].
  - destruct (refresh_leaves n w s) as (h & l & t & -> & Hh).
    repeat split; try reflexivity. exact Hh.
  - repeat split; reflexivity.
Qed.

End WithRenderer.

(** X14: a coin object without the key ["quote"] still gives a row, whose
    price, changes, market cap and volume are [None]; a coin whose
    ["quote"] is [null] makes the loop raise, and so does a coin that is
    not an object. *)
Theorem quote_missing_or_null (items : list (string * Fetch.json)) :
  (Fetch.assoc "quote" items = None ->
   row_of_coin (Fetch.JDict items)
   = Some (Row (as_int (default Fetch.JNull (Fetch.assoc "cmc_rank" items)))
             (as_str (default Fetch.JNull (Fetch.assoc "symbol" items)))
             (as_str (default Fetch.JNull (Fetch.assoc "name" items)))
             None None None None None
             (as_str (default Fetch.JNull (Fetch.assoc "last_updated" items)))))
  /\ (Fetch.assoc "quote" items = Some Fetch.JNull ->
      row_of_coin (Fetch.JDict items) = None)
  /\ row_of_coin Fetch.JNull = None
  /\ (forall t, row_of_coin (Fetch.JStr t) = None)
  /\ (forall l, row_of_coin (Fetch.JList l) = None).
Proof.
  repeat split; try reflexivity.
  - intros H. unfold row_of_coin. cbn. rewrite H. cbn.
    destruct (Fetch.assoc "cmc_rank" items),
      (Fetch.assoc "symbol" items), (Fetch.assoc "name" items),
      (Fetch.assoc "last_updated" items); reflexivity.
  - intros H. unfold row_of_coin. cbn. now rewrite H.
Qed.

Lemma quote_missing_or_null_witness :
  row_of_coin Demo.unquoted = Some Demo.unquoted_row
  /\ row_of_coin Demo.null_quote = None.
Proof.
  split.
  - exact (proj1 (quote_missing_or_null
                    [("cmc_rank", Fetch.JNum (PyNum.PyInt 2));
                     ("symbol", Fetch.JStr "ETH");
                     ("name", Fetch.JStr "Ethereum")]) eq_refl).
  - exact (proj1 (proj2 (quote_missing_or_null
                    [("cmc_rank", Fetch.JNum (PyNum.PyInt 3));
                     ("symbol", Fetch.JStr "XRP");
                     ("quote", Fetch.JNull)])) eq_refl).
Defined.

Lemma refresh_frame_witness :
  heap (state_of (refresh (fun _ => None) (Some 200)
                    (Demo.listing [Demo.bitcoin; Demo.null_quote]) demo_app))
    !! rows_raw demo_app
  = heap demo_app !! rows_raw demo_app.
Proof.
  apply (proj1 (proj2 (proj2 (proj2
           (refresh_frame (fun _ => None) (Some 200)
              (Demo.listing [Demo.bitcoin; Demo.null_quote]) demo_app))))).
  eexists. vm_compute. reflexivity.
Defined.


Lemma refresh_after_failure_clears_witness :
  exists s',
    refresh (fun _ => None) (Some 200) (Fetch.GetRaises false "timed out")
      demo_app = Ok s'
    /\ deref (heap s') (rows_raw s') = []
    /\ tree s' = []
    /\ dialogs s'
       = (dialogs demo_app
          ++ snd (Fetch.fetch_listings (Fetch.GetRaises false "timed out")))%list.
Proof.
  apply refresh_after_failure_clears. constructor.
Defined.

Lemma refresh_stops_at_bad_coin_witness :
  exists s',
    refresh (fun _ => None) (Some 200)
      (Demo.listing [Demo.bitcoin; Demo.null_quote; Demo.unquoted]) demo_app
    = Exn s'
    /\ deref (heap s') (rows_raw s') = [Demo.bitcoin_row]
    /\ heap demo_app !! rows_raw s' = None
    /\ tree s' = tree demo_app.
Proof.
  apply (refresh_stops_at_bad_coin (fun _ => None) 200
           (Demo.listing [Demo.bitcoin; Demo.null_quote; Demo.unquoted])
           (Fetch.JList [Demo.bitcoin; Demo.null_quote; Demo.unquoted])
           Demo.null_quote [] [Demo.bitcoin] [Demo.unquoted]).
  - reflexivity.
  - reflexivity.
  - repeat constructor.
  - reflexivity.
Defined.

Lemma refresh_raises_on_data_not_iterable_witness :
  exists s',
    refresh (fun _ => None) (Some 200)
      (Demo.answer (Fetch.JDict [("data", Fetch.JNull)])) demo_app = Exn s'
    /\ deref (heap s') (rows_raw s') = []
    /\ tree s' = tree demo_app
    /\ dialogs s' = (dialogs demo_app ++ [])%list.
Proof.
  apply (refresh_raises_on_data_not_iterable (fun _ => None) 200
           (Demo.answer (Fetch.JDict [("data", Fetch.JNull)])) Fetch.JNull []);
    reflexivity.
Defined.

End RefreshFacts.

(** ** The refresh timer and the start of the window *)

Module Timer.
Import App Shape.
Local Open Scope string_scope.

Section WithRenderer.
Variable iso : string -> option string.

Lemma pending_is_after_id (s : app) (id : nat) (ms : Z) :
  one_timer s -> timers s !! id = Some ms ->
  after_id s = Some id /\ timers s = {[id := ms]}.
Proof.
  intros [H | (id' & ms' & Ha & Ht)] T.
  - rewrite H, lookup_empty in T. discriminate T.
  - rewrite Ht in T. apply lookup_singleton_Some in T as [-> ->]. now split.
Qed.

(** X15: when the pending timer fires and the refresh of [_tick] returns,
    the timer is scheduled again with the same interval under a new id,
    which [_after_id] names; when that refresh raises, no timer is
    scheduled: nothing is pending any more and [_after_id] keeps the id of
    the timer that fired. *)
Theorem tick_reschedules_unless_refresh_raises (id : nat) (ms : Z)
    (limit : option Z) (w : Fetch.get_result) (s : app) :
  one_timer s ->
  timers s !! id = Some ms ->
  (exists s1 s',
     refresh iso limit w (after_cancel id s) = Ok s1
     /\ fire iso id limit w s = Ok s'
     /\ timers s' = {[next_after s := ms]}
     /\ after_id s' = Some (next_after s)
     /\ tree s' = tree s1)
  \/ (exists s',
        refresh iso limit w (after_cancel id s) = Exn s'
        /\ fire iso id limit w s = Exn s'
        /\ timers s' = ∅
        /\ after_id s' = Some id).
Proof.
  intros Inv T. destruct (pending_is_after_id s id ms Inv T) as [Ha Ht].
  unfold fire. rewrite T.
  pose proof (Window.refresh_sched iso limit w (after_cancel id s)) as HS.
  unfold sched in HS. cbn in HS. rewrite Ht, delete_singleton_eq in HS.
  destruct (refresh iso limit w (after_cancel id s)) as [s1|s1];
    cbn [state_of bind] in *; injection HS as HA HT HN.
  - left. exists s1. eexists. split; [reflexivity|]. split; [reflexivity|].
    cbn. rewrite HT, HN. split; [apply insert_empty|]. now split.
  - right. exists s1. split; [reflexivity|]. split; [reflexivity|].
    split; [exact HT | now rewrite HA].
Qed.

(** *** Ids are not used twice *)

Lemma apply_auto_refresh_ids (auto : option Z) (s : app) :
  ids_below s ->
  ids_below (apply_auto_refresh auto s)
  /\ (next_after s <= next_after (apply_auto_refresh auto s))%nat
  /\ (forall id, (id < next_after s)%nat ->
        timers s !! id = None \/ after_id s = Some id ->
        timers (apply_auto_refresh auto s) !! id = None).
Proof.
  intros [Ht Ha]. unfold apply_auto_refresh, after, after_cancel, ids_below.
  destruct (after_id s) as [a|] eqn:A;
    destruct (0 <? match auto with Some ms => ms | None => 0 end)%Z; cbn.
  - split; [split|split; [lia|]].
    + intros i [v Hi]. apply lookup_insert_Some in Hi as [[<- _] | [Hne Hi]]; [lia|].
      apply lookup_delete_Some in Hi as [_ Hi]. specialize (Ht i (ex_intro _ v Hi)). lia.
    + intros i [= <-]. lia.
    + intros id Hid H. rewrite lookup_insert_ne by lia.
      destruct H as [H | [= ->]]; [|apply lookup_delete_eq].
      apply lookup_delete_None. now right.
  - split; [split|split; [lia|]].
    + intros i [v Hi]. apply lookup_delete_Some in Hi as [_ Hi]. eauto.
    + intros i [=].
    + intros id Hid H. destruct H as [H | [= ->]]; [|apply lookup_delete_eq].
      apply lookup_delete_None. now right.
  - split; [split|split; [lia|]].
    + intros i [v Hi]. apply lookup_insert_Some in Hi as [[<- _] | [Hne Hi]]; [lia|].
      specialize (Ht i (ex_intro _ v Hi)). lia.
    + intros i [= <-]. lia.
    + intros id Hid H. rewrite lookup_insert_ne by lia.
      destruct H as [H | [=]]. exact H.
  - split; [split; [exact Ht|]|split; [lia|]].
    + intros i H0. congruence.
    + intros id Hid [H | H]; [exact H | congruence].
Qed.

(** One event keeps the ids below the counter, never lowers the counter
    and never makes an old id pending. *)
Lemma step_ids (ev : event) (s : app) :
  ids_below s ->
  ids_below (step iso s ev)
  /\ (next_after s <= next_after (step iso s ev))%nat
  /\ (forall id, (id < next_after s)%nat -> timers s !! id = None ->
        timers (step iso s ev) !! id = None).
Proof.
  intros Hb.
  assert (Keep : forall s', sched s' = sched s ->
            ids_below s' /\ (next_after s <= next_after s')%nat
            /\ (forall id, (id < next_after s)%nat -> timers s !! id = None ->
                  timers s' !! id = None)).
  { unfold sched, ids_below. intros s' [= -> -> ->].
    split; [exact Hb|]. split; [lia|]. now intros id _ H. }
  destruct ev as [auto | i limit w | limit w | col | text]; cbn [step].
  - destruct (apply_auto_refresh_ids auto s Hb) as (H1 & H2 & H3).
    split; [exact H1|]. split; [exact H2|].
    intros id Hid Hn. apply H3; [exact Hid | now left].
  - unfold fire. destruct (timers s !! i) as [ms|] eqn:T; [|now apply Keep].
    pose proof (Window.refresh_sched iso limit w (after_cancel i s)) as HS.
    unfold sched in HS. cbn in HS.
    destruct Hb as [Ht Ha].
    destruct (refresh iso limit w (after_cancel i s)) as [s1|s1];
      cbn [state_of bind] in *; injection HS as HA HT HN.
    + unfold ids_below. cbn. rewrite HT, HN. split; [split|split; [lia|]].
      * intros j [v Hj]. apply lookup_insert_Some in Hj as [[<- _] | [Hne Hj]]; [lia|].
        apply lookup_delete_Some in Hj as [_ Hj].
        specialize (Ht j (ex_intro _ v Hj)). lia.
      * intros j [= <-]. lia.
      * intros id Hid Hn. rewrite lookup_insert_ne by lia.
        apply lookup_delete_None. now right.
    + unfold ids_below. rewrite HA, HT, HN. split; [split|split; [lia|]].
      * intros j [v Hj]. apply lookup_delete_Some in Hj as [_ Hj]. eauto.
      * exact Ha.
      * intros id Hid Hn. apply lookup_delete_None. now right.
  - apply Keep, Window.refresh_sched.
  - apply Keep. unfold sort_by. now rewrite Window.apply_filter_sched.
  - apply Keep. now rewrite Window.apply_filter_sched.
Qed.

Lemma run_ids (evs : list event) (s : app) (id : nat) :
  ids_below s -> (id < next_after s)%nat -> timers s !! id = None ->
  timers (run iso evs s) !! id = None.
Proof.
  revert s. induction evs as [|ev evs IH]; intros s Hb Hid Hn; [exact Hn|].
  cbn [run List.fold_left].
  destruct (step_ids ev s Hb) as (H1 & H2 & H3).
  apply IH; [exact H1 | lia | now apply H3].
Qed.

(** Every state that the window reaches has its ids below the counter. *)
Lemma run_ids_below (evs : list event) (s : app) :
  ids_below s -> ids_below (run iso evs s).
Proof.
  revert s. induction evs as [|ev evs IH]; intros s Hb; [exact Hb|].
  cbn [run List.fold_left]. apply IH. now apply step_ids.
Qed.

(** X16: a timer that [apply_auto_refresh] has cancelled never fires: its
    id is pending in no state that the window reaches afterwards, whatever
    events follow. *)
Theorem cancelled_timer_never_comes_back (auto : option Z) (evs : list event)
    (id : nat) (s : app) :
  ids_below s ->
  after_id s = Some id ->
  timers (run iso evs (apply_auto_refresh auto s)) !! id = None.
Proof.
  intros Hb Ha.
  assert (Hid : (id < next_after s)%nat) by (now apply (proj2 Hb)).
  destruct (apply_auto_refresh_ids auto s Hb) as (H1 & H2 & H3).
  apply run_ids; [exact H1 | lia | apply H3; [exact Hid | now right]].
Qed.


End WithRenderer.

Lemma tick_reschedules_unless_refresh_raises_witness :
  (exists s',
     fire (fun _ => None) 0%nat (Some 200)
       (Demo.listing [Demo.bitcoin])
       (apply_auto_refresh (Some 60000) init_app) = Ok s'
     /\ timers s' = {[1%nat := 60000]})
  /\ (exists s',
        fire (fun _ => None) 0%nat (Some 200)
          (Demo.answer (Fetch.JDict [("data", Fetch.JNull)]))
          (apply_auto_refresh (Some 60000) init_app) = Exn s'
        /\ timers s' = ∅).
Proof.
  assert (I : one_timer (apply_auto_refresh (Some 60000) init_app)).
  { right. exists 0%nat, 60000. split; vm_compute; reflexivity. }
  assert (T : timers (apply_auto_refresh (Some 60000) init_app) !! 0%nat
              = Some 60000) by (vm_compute; reflexivity).
  split.
  - destruct (tick_reschedules_unless_refresh_raises (fun _ => None) 0%nat 60000
                (Some 200) (Demo.listing [Demo.bitcoin]) _ I T)
      as [(s1 & s' & _ & F & Ht & _) | (s' & R & _)].
    + exists s'. split; [exact F | exact Ht].
    + vm_compute in R. discriminate R.
  - destruct (tick_reschedules_unless_refresh_raises (fun _ => None) 0%nat 60000
                (Some 200) (Demo.answer (Fetch.JDict [("data", Fetch.JNull)]))
                _ I T)
      as [(s1 & s' & R & _) | (s' & _ & F & Ht & _)].
    + vm_compute in R. discriminate R.
    + exists s'. split; [exact F | exact Ht].
Defined.

Lemma cancelled_timer_never_comes_back_witness :
  timers (run (fun _ => None)
            [Configure (Some 1000); Fire 1%nat (Some 200) (Demo.listing []);
             Heading Price]
            (apply_auto_refresh (Some 30000)
               (apply_auto_refresh (Some 60000) init_app))) !! 0%nat = None.
Proof.
  apply (cancelled_timer_never_comes_back (fun _ => None) (Some 30000)
           [Configure (Some 1000); Fire 1%nat (Some 200) (Demo.listing []);
            Heading Price]
           0%nat (apply_auto_refresh (Some 60000) init_app)).
  - split.
    + intros i [v Hi]. vm_compute in Hi.
      destruct i as [|i]; [vm_compute; lia|].
      exfalso. revert Hi. change (({[0%nat := 60000]} : gmap nat Z) !! S i = Some v -> False).
      rewrite lookup_singleton_ne by lia. discriminate.
    + intros i [= <-]. vm_compute. lia.
  - vm_compute. reflexivity.
Defined.


End Timer.

(** ** More on [fetch_listings] *)

Module FetchMore.
Import Fetch.
Local Open Scope string_scope.

(** X18: an answer with a good status and an object payload that has
    the key ["data"] is handed over as it is, with no dialog; and whatever
    the answer, [fetch_listings] shows at most one dialog, and when it shows
    one it returns the empty list. *)
Theorem fetch_listings_contract (w : get_result) :
  (forall r items v,
      w = GetReturns r -> http_error r = None ->
      body r = inr (JDict items) -> assoc "data" items = Some v ->
      fetch_listings w = (Returned v, []))
  /\ (List.length (snd (fetch_listings w)) <= 1)%nat
  /\ (snd (fetch_listings w) <> [] ->
      fst (fetch_listings w) = Returned (JList [])).
Proof.
  split; [|split].
  - intros r items v -> H B D. unfold fetch_listings. cbn. now rewrite H, B, D.
  - unfold fetch_listings.
    destruct (try_body w) as [r [[msg|msg]|v]]; cbn; lia.
  - unfold fetch_listings.
    destruct (try_body w) as [r [[msg|msg]|v]]; cbn; congruence.
Qed.

Lemma fetch_listings_contract_witness :
  fetch_listings (Demo.listing [Demo.bitcoin])
  = (Returned (JList [Demo.bitcoin]), []).
Proof.
  apply (proj1 (fetch_listings_contract (Demo.listing [Demo.bitcoin]))
           (Response None ""
              (inr (JDict [("status", JDict []); ("data", JList [Demo.bitcoin])])))
           [("status", JDict []); ("data", JList [Demo.bitcoin])]);
    reflexivity.
Defined.

End FetchMore.

(** ** More on the formatters *)

Module FmtMore.
Import PyNum Fmt Shape.
Local Open Scope string_scope.

Lemma geb_int (x : number) (c : Z) :
  geb x (PyInt c) = true <-> (inject_Z c <= value x)%Q.
Proof. apply PyNumFacts.geb_le. Qed.

Lemma geb_int_false (x : number) (c : Z) :
  geb x (PyInt c) = false <-> (value x < inject_Z c)%Q.
Proof. apply PyNumFacts.geb_false_lt. Qed.

Lemma money_scaled_abbreviated (x : number) (c : Z) (suffix : string) :
  abbreviated suffix (or_dash (money_scaled x c suffix)).
Proof.
  unfold money_scaled.
  destruct x as [z|f].
  - destruct (int_true_div z c); cbn; [right; eauto | now left].
  - destruct (float_div_int f c); cbn; right; eauto.
Qed.

(** X19: [fmt_money] picks the letter by the magnitude of the amount: T
    from 10^12, B from 10^9, M from 10^6, K from 10^3; an amount below
    1000, negative ones included, is printed in full with two decimals. *)
Theorem fmt_money_letter (x : number) :
  ((inject_Z (10 ^ 12) <= value x)%Q ->
   abbreviated "T" (fmt_money (Some x)))
  /\ ((inject_Z (10 ^ 9) <= value x)%Q -> (value x < inject_Z (10 ^ 12))%Q ->
      abbreviated "B" (fmt_money (Some x)))
  /\ ((inject_Z (10 ^ 6) <= value x)%Q -> (value x < inject_Z (10 ^ 9))%Q ->
      abbreviated "M" (fmt_money (Some x)))
  /\ ((inject_Z (10 ^ 3) <= value x)%Q -> (value x < inject_Z (10 ^ 6))%Q ->
      abbreviated "K" (fmt_money (Some x)))
  /\ ((value x < inject_Z (10 ^ 3))%Q ->
      fmt_money (Some x)
      = or_dash (option_map (String.append "$") (format_number true 2 x))).
Proof.
  unfold fmt_money.
  change 1000000000000 with (10 ^ 12). change 1000000000 with (10 ^ 9).
  change 1000000 with (10 ^ 6). change 1000 with (10 ^ 3).
  repeat split.
  - intros H. apply geb_int in H. rewrite H. apply money_scaled_abbreviated.
  - intros H L. apply geb_int in H. apply geb_int_false in L.
    rewrite L, H. apply money_scaled_abbreviated.
  - intros H L. apply geb_int in H. apply geb_int_false in L.
    assert (L' : geb x (PyInt (10 ^ 12)) = false).
    { apply geb_int_false. eapply Qlt_trans; [apply geb_int_false, L|]. reflexivity. }
    rewrite L', L, H. apply money_scaled_abbreviated.
  - intros H L. apply geb_int in H. apply geb_int_false in L.
    assert (L9 : geb x (PyInt (10 ^ 9)) = false).
    { apply geb_int_false. eapply Qlt_trans; [apply geb_int_false, L|]. reflexivity. }
    assert (L12 : geb x (PyInt (10 ^ 12)) = false).
    { apply geb_int_false. eapply Qlt_trans; [apply geb_int_false, L|]. reflexivity. }
    rewrite L12, L9, L, H. apply money_scaled_abbreviated.
  - intros L. apply geb_int_false in L.
    assert (L6 : geb x (PyInt (10 ^ 6)) = false).
    { apply geb_int_false. eapply Qlt_trans; [apply geb_int_false, L|]. reflexivity. }
    assert (L9 : geb x (PyInt (10 ^ 9)) = false).
    { apply geb_int_false. eapply Qlt_trans; [apply geb_int_false, L|]. reflexivity. }
    assert (L12 : geb x (PyInt (10 ^ 12)) = false).
    { apply geb_int_false. eapply Qlt_trans; [apply geb_int_false, L|]. reflexivity. }
    now rewrite L12, L9, L6, L.
Qed.

Lemma fmt_money_letter_witness :
  abbreviated "M" (fmt_money (Some (PyInt 999999999)))
  /\ fmt_money (Some (PyInt 999999999)) = "$1,000.00M"
  /\ fmt_money (Some (PyInt (-5000000000))) = "$-5,000,000,000.00".
Proof.
  split; [|split].
  - apply (proj1 (proj2 (proj2 (fmt_money_letter (PyInt 999999999)))));
      vm_compute; congruence.
  - vm_compute. reflexivity.
  - rewrite (proj2 (proj2 (proj2 (proj2 (fmt_money_letter (PyInt (-5000000000))))))).
    + vm_compute. reflexivity.
    + vm_compute. reflexivity.
Defined.

End FmtMore.

(** ** Placeholders *)

Module Placeholders.
Import PyNum Fmt App Shape.
Local Open Scope string_scope.
Local Open Scope Z_scope.

Lemma round_half_even_ge (n d : Z) : n / d <= round_half_even n d.
Proof.
  unfold round_half_even.
  destruct (2 * (n mod d) ?= d); [destruct (Z.even (n / d))| |]; lia.
Qed.

(** An integer of 2^1024 or more has no binary64 value. *)
Lemma round_binary64_overflow (a : Z) :
  2 ^ 1024 <= a -> round_binary64 a 1 = None.
Proof.
  intros H.
  assert (Hpos : 0 < a).
  { pose proof (Z.pow_pos_nonneg 2 1024 ltac:(lia) ltac:(lia)). lia. }
  unfold round_binary64.
  destruct (a =? 0) eqn:E; [apply Z.eqb_eq in E; lia|].
  set (k := Z.log2 a).
  assert (Hk : 1024 <= k).
  { unfold k. rewrite <- (Z.log2_pow2 1024) by lia. now apply Z.log2_le_mono. }
  assert (Hspec : 2 ^ k <= a) by (apply Z.log2_spec; exact Hpos).
  assert (HI : ilog2_ratio a 1 = k).
  { unfold ilog2_ratio. change (Z.log2 1) with 0. rewrite Z.sub_0_r. fold k.
    rewrite (Z.max_r 0 k), (Z.max_l 0 (- k)) by lia.
    rewrite Z.pow_0_r, Z.mul_1_r, Z.mul_1_l.
    apply Z.leb_le in Hspec. now rewrite Hspec. }
  rewrite HI. rewrite (Z.max_l (k - 52) (- 1074)) by lia.
  rewrite (Z.max_l 0 (- (k - 52))), (Z.max_r 0 (k - 52)) by lia.
  rewrite Z.pow_0_r, Z.mul_1_r, Z.mul_1_l.
  set (e := k - 52).
  assert (He : 0 <= e) by (unfold e; lia).
  assert (Hpe : 0 < 2 ^ e) by (apply Z.pow_pos_nonneg; lia).
  assert (Hm : 2 ^ 52 <= round_half_even a (2 ^ e)).
  { etransitivity; [|apply round_half_even_ge].
    apply Z.div_le_lower_bound; [exact Hpe|].
    rewrite <- Z.pow_add_r by lia. now replace (e + 52) with k by (unfold e; lia). }
  assert (Hfin : 2 ^ (1024 + 1074) <= round_half_even a (2 ^ e) * 2 ^ (e + 1074)).
  { etransitivity; [|apply Z.mul_le_mono_nonneg_r; [|exact Hm]].
    - rewrite <- Z.pow_add_r by lia. apply Z.pow_le_mono_r; unfold e; lia.
    - apply Z.pow_nonneg. lia. }
  apply Z.leb_le in Hfin. now rewrite Hfin.
Qed.

Lemma float_of_int_overflow (z : Z) :
  2 ^ 1024 <= Z.abs z -> float_of_int z = None.
Proof.
  intros H. unfold float_of_int, nearest_float.
  now rewrite (round_binary64_overflow _ H).
Qed.

Lemma percent_is_not_dash (s : string) : String.append s "%" <> "-".
Proof.
  destruct s as [|c s]; [discriminate|].
  change (String.append (String c s) "%") with (String c (String.append s "%")).
  intros [= _ H]. destruct s; discriminate H.
Qed.

(** X20: [fmt_pct] and [fmt_price] give the placeholder ["-"] only for a
    missing value or for an integer that does not convert to float, which
    every integer of magnitude 2^1024 or more is; a float never gives it. *)
Theorem placeholder_means_unformattable (x : option number) :
  (fmt_pct x = "-" <->
   x = None \/ exists z, x = Some (PyInt z) /\ float_of_int z = None)
  /\ (fmt_price x = "-" <->
      x = None \/ exists z, x = Some (PyInt z) /\ float_of_int z = None)
  /\ (forall z, 2 ^ 1024 <= Z.abs z ->
        fmt_pct (Some (PyInt z)) = "-" /\ fmt_price (Some (PyInt z)) = "-").
Proof.
  split; [|split].
  - destruct x as [[z|f]|]; cbn.
    + destruct (float_of_int z) as [g|] eqn:E; cbn.
      * split; [intros H; now destruct (percent_is_not_dash _ H)|].
        intros [[=] | (z' & [= <-] & H)]. congruence.
      * split; [intros _; right; eauto | reflexivity].
    + split; [intros H; now destruct (percent_is_not_dash _ H)|].
      intros [[=] | (z' & [=] & _)].
    + split; [now left | reflexivity].
  - destruct x as [[z|f]|]; cbn.
    + destruct (float_of_int z) as [g|] eqn:E.
      * split; [destruct (ltb (PyInt z) (PyInt 1)); discriminate|].
        intros [[=] | (z' & [= <-] & H)]. congruence.
      * split; [intros _; right; eauto|].
        intros _. now destruct (ltb (PyInt z) (PyInt 1)).
    + split; [destruct (ltb (PyFloat f) (PyInt 1)); discriminate|].
      intros [[=] | (z' & [=] & _)].
    + split; [now left | reflexivity].
  - intros z H. pose proof (float_of_int_overflow z H) as E.
    unfold fmt_pct, fmt_price, format_number. rewrite E.
    split; [reflexivity | now destruct (ltb (PyInt z) (PyInt 1))].
Qed.

Lemma placeholder_means_unformattable_witness :
  fmt_pct (Some (PyInt (- 2 ^ 1024))) = "-"
  /\ fmt_price (Some (PyInt (- 2 ^ 1024))) = "-".
Proof.
  apply (proj2 (proj2 (placeholder_means_unformattable None))).
  vm_compute. discriminate.
Defined.

Section Timestamp.
Variable iso : string -> option string.

(** [fmt_dt] shows ["-"] for an empty timestamp and gives a
    timestamp that the parser rejects back as it is. *)
Lemma fmt_dt_falls_back (s : string) :
  fmt_dt iso (Some "") = "-"
  /\ (s <> "" -> iso (PyStr.replace_char "Z" "+00:00" s) = None ->
      fmt_dt iso (Some s) = s).
Proof.
  split; [reflexivity|]. intros Hs Hp. unfold fmt_dt.
  destruct s as [|c s]; [contradiction|]. cbn [PyStr.truthy negb].
  now rewrite Hp.
Qed.

End Timestamp.

Lemma fmt_dt_falls_back_witness :
  fmt_dt (fun _ => None) (Some "yesterday") = "yesterday".
Proof.
  apply (proj2 (fmt_dt_falls_back (fun _ => None) "yesterday"));
    [discriminate | reflexivity].
Defined.

Lemma replace_has_no_Z (s : string) :
  ~ In "Z"%char (list_ascii_of_string (PyStr.replace_char "Z" "+00:00" s)).
Proof.
  induction s as [|c s IH]; cbn [PyStr.replace_char]; [intros []|].
  destruct (Ascii.eqb_spec c "Z") as [->|N].
  - change (String.append "+00:00" ?t)
      with (String "+" (String "0" (String "0" (String ":" (String "0" (String "0" t)))))).
    cbn. intros [H|[H|[H|[H|[H|[H|H]]]]]]; try discriminate H. now apply IH.
  - cbn. intros [H|H]; [now apply N | now apply IH].
Qed.

(** X21: [fmt_dt] never hands a text with a capital Z to the parser: two
    parsers that agree on the texts without a Z give the same result on
    every timestamp; the Z of UTC is replaced by the offset [+00:00]. *)
Theorem parser_never_sees_Z (iso1 iso2 : string -> option string)
    (x : option string) :
  (forall t, ~ In "Z"%char (list_ascii_of_string t) -> iso1 t = iso2 t) ->
  fmt_dt iso1 x = fmt_dt iso2 x
  /\ PyStr.replace_char "Z" "+00:00" "2024-01-01T00:00:00Z"
     = "2024-01-01T00:00:00+00:00".
Proof.
  intros H. split; [|reflexivity].
  destruct x as [s|]; [|reflexivity]. unfold fmt_dt.
  destruct (negb (PyStr.truthy s)); [reflexivity|].
  now rewrite (H _ (replace_has_no_Z s)).
Qed.

Lemma parser_never_sees_Z_witness :
  fmt_dt (fun t => if String.eqb t "2024-01-01T00:00:00+00:00"
                   then Some "2024-01-01 00:00:00" else None)
    (Some "2024-01-01T00:00:00Z")
  = fmt_dt (fun t => if PyStr.contains "Z" t then Some "unreachable"
                     else if String.eqb t "2024-01-01T00:00:00+00:00"
                          then Some "2024-01-01 00:00:00" else None)
      (Some "2024-01-01T00:00:00Z").
Proof.
  apply parser_never_sees_Z. intros t Ht.
  assert (C : PyStr.contains "Z" t = false).
  { induction t as [|c t IH]; [reflexivity|].
    cbn in Ht. cbn [PyStr.contains String.prefix].
    destruct (ascii_dec "Z" c) as [E|N]; [destruct Ht; now left|].
    rewrite IH; [reflexivity|]. intros I. apply Ht. now right. }
  now rewrite C.
Defined.

(** X22: a missing value never shows as text of its own: under every
    column an item shows the empty string (rank, symbol, name) or ["-"]
    (all other columns) when the row has [None] there, and an item always
    has its nine values. *)
Theorem missing_values_show_placeholders (iso : string -> option string)
    (r : row) (col : column) :
  List.length (values (render iso r)) = 9%nat
  /\ (null_at col r = true ->
      shown_at (render iso r) col = Some (placeholder col)).
Proof.
  split; [reflexivity|].
  unfold null_at, shown_at. destruct r as [a1 a2 a3 a4 a5 a6 a7 a8 a9].
  destruct col;
    cbn [get index placeholder rank symbol name price pct24h pct7d mcap
         vol24h updated];
    match goal with |- is_none (_ ?f) = true -> _ => destruct f as [v|] end;
    cbn [of_int of_num of_str is_none]; try discriminate; intros _; reflexivity.
Qed.

Lemma missing_values_show_placeholders_witness :
  shown_at (render (fun _ => None) Demo.unquoted_row) Price = Some "-"
  /\ shown_at (render (fun _ => None) Demo.unquoted_row) Updated = Some "-".
Proof.
  split.
  - apply (proj2 (missing_values_show_placeholders (fun _ => None)
                    Demo.unquoted_row Price)). reflexivity.
  - apply (proj2 (missing_values_show_placeholders (fun _ => None)
                    Demo.unquoted_row Updated)). reflexivity.
Defined.

End Placeholders.

(** ** The lookup script *)

Module Lookup.
Import PyNum Fetch Main.
Local Open Scope string_scope.

Section WithRepr.
Variable py_repr : json -> string.

Lemma format_float (comma : bool) (d : nat) (f : dyadic) :
  format_value comma d (JNum (PyFloat f)) = inr (format_f comma d f).
Proof. reflexivity. Qed.

(** X23: for a coin stored under the typed symbol in upper case, with a
    name and a USD quote whose price, 24h change and market cap are floats,
    the script prints its four lines and ends without an exception,
    whatever the letter case of what was typed. *)
Theorem found_coin_prints_four_lines (typed : string) (r : response)
    (top table coin quote usd : list (string * json)) (name : json)
    (price change market_cap : dyadic) :
  status_code r = 200 ->
  body r = inr (JDict top) ->
  assoc "data" top = Some (JDict table) ->
  assoc (upper typed) table = Some (JDict coin) ->
  assoc "name" coin = Some name ->
  assoc "quote" coin = Some (JDict quote) ->
  assoc "USD" quote = Some (JDict usd) ->
  assoc "price" usd = Some (JNum (PyFloat price)) ->
  assoc "percent_change_24h" usd = Some (JNum (PyFloat change)) ->
  assoc "market_cap" usd = Some (JNum (PyFloat market_cap)) ->
  main py_repr typed (GetReturns r)
  = ([String.append newline
        (String.append (str_of py_repr name)
           (String.append " (" (String.append (upper typed) ")")));
      String.append "Price: $" (format_f true 2 price);
      String.append "24h Change: " (String.append (format_f false 2 change) "%");
      String.append "Market Cap: $" (format_f true 0 market_cap)],
     None).
Proof.
  intros Hs Hb Hd Hc Hn Hq Hu Hp Hch Hm.
  unfold main. rewrite Hs, Hb. cbn [Z.eqb Pos.eqb subscript].
  rewrite Hd. cbn [member]. rewrite Hc.
  unfold read_coin. cbn [subscript]. rewrite Hc. cbn [subscript].
  rewrite Hn, Hq. cbn [subscript]. rewrite Hu. cbn [subscript].
  rewrite Hp, Hch, Hm.
  unfold print_coin. now rewrite !format_float.
Qed.

(** X24: when the price of the found coin is [null], the script has
    already printed the line with the name when the exception is raised: it
    ends with a [TypeError] after one line. *)
Theorem null_price_stops_after_the_name (typed : string) (r : response)
    (top table coin quote usd : list (string * json))
    (name change market_cap : json) :
  status_code r = 200 ->
  body r = inr (JDict top) ->
  assoc "data" top = Some (JDict table) ->
  assoc (upper typed) table = Some (JDict coin) ->
  assoc "name" coin = Some name ->
  assoc "quote" coin = Some (JDict quote) ->
  assoc "USD" quote = Some (JDict usd) ->
  assoc "price" usd = Some JNull ->
  assoc "percent_change_24h" usd = Some change ->
  assoc "market_cap" usd = Some market_cap ->
  main py_repr typed (GetReturns r)
  = ([String.append newline
        (String.append (str_of py_repr name)
           (String.append " (" (String.append (upper typed) ")")))],
     Some TypeError).
Proof.
  intros Hs Hb Hd Hc Hn Hq Hu Hp Hch Hm.
  unfold main. rewrite Hs, Hb. cbn [Z.eqb Pos.eqb subscript].
  rewrite Hd. cbn [member]. rewrite Hc.
  unfold read_coin. cbn [subscript]. rewrite Hc. cbn [subscript].
  rewrite Hn, Hq. cbn [subscript]. rewrite Hu. cbn [subscript].
  rewrite Hp, Hch, Hm.
  reflexivity.
Qed.

Lemma format_value_no_key_error (comma : bool) (d : nat) (x : json)
    (k : string) :
  format_value comma d x <> inl (KeyError k).
Proof.
  unfold format_value. destruct x as [|b|n|t|l|items]; try discriminate.
  - destruct (Fmt.format_number comma d _); discriminate.
  - destruct (Fmt.format_number comma d n); discriminate.
Qed.

Lemma print_coin_no_key_error (symbol : string)
    (name price change market_cap : json) (out : list string) (k : string) :
  print_coin py_repr symbol name price change market_cap
  <> (out, Some (KeyError k)).
Proof.
  unfold print_coin.
  destruct (format_value true 2 price) as [e|p] eqn:E1.
  { intros [= _ ->]. now destruct (format_value_no_key_error _ _ _ _ E1). }
  destruct (format_value false 2 change) as [e|c] eqn:E2.
  { intros [= _ ->]. now destruct (format_value_no_key_error _ _ _ _ E2). }
  destruct (format_value true 0 market_cap) as [e|m] eqn:E3.
  { intros [= _ ->]. now destruct (format_value_no_key_error _ _ _ _ E3). }
  intros [=].
Qed.

(** X25: a missing key ends the script before it prints anything: when
    the script ends with a [KeyError], its output is empty. *)
Theorem key_error_prints_nothing (typed : string) (w : get_result)
    (out : list string) (k : string) :
  main py_repr typed w = (out, Some (KeyError k)) -> out = [].
Proof.
  unfold main. destruct w as [msg|r]; [intros [=]|].
  destruct (status_code r =? 200)%Z; [|intros [=]].
  destruct (body r) as [msg|data]; [intros [=]|].
  destruct (subscript data "data") as [e|table]; [now intros [= <-]|].
  destruct (member (upper typed) table) as [e|[|]];
    [now intros [= <-] | | intros [=]].
  destruct (read_coin table (upper typed)) as [e|[[[name price] change] cap]];
    [now intros [= <-]|].
  intros H. now destruct (print_coin_no_key_error _ _ _ _ _ _ _ H).
Qed.

End WithRepr.

Lemma found_coin_prints_four_lines_witness :
  main (fun _ => "") "btc"
    (quotes "BTC"
       (JDict [("name", JStr "Bitcoin");
               ("quote",
                JDict [("USD",
                        JDict [("price", JNum (PyFloat (Dyadic false 84001 (-1))));
                               ("percent_change_24h",
                                JNum (PyFloat (Dyadic true 7782220156096217 (-51))));
                               ("market_cap",
                                JNum (PyFloat (Dyadic false 1640000000001 (-1))))])])]))
  = ([String.append newline "Bitcoin (BTC)"; "Price: $42,000.50";
      "24h Change: -3.46%"; "Market Cap: $820,000,000,000"], None).
Proof.
  unfold quotes. etransitivity.
  - eapply (found_coin_prints_four_lines (fun _ => "") "btc"); reflexivity.
  - vm_compute. reflexivity.
Defined.

Lemma null_price_stops_after_the_name_witness :
  main (fun _ => "") "eth"
    (quotes "ETH"
       (JDict [("name", JStr "Ethereum");
               ("quote",
                JDict [("USD",
                        JDict [("price", JNull);
                               ("percent_change_24h", JNull);
                               ("market_cap", JNull)])])]))
  = ([String.append newline "Ethereum (ETH)"], Some TypeError).
Proof.
  unfold quotes. etransitivity.
  - eapply (null_price_stops_after_the_name (fun _ => "") "eth"); reflexivity.
  - vm_compute. reflexivity.
Defined.

Lemma key_error_prints_nothing_witness :
  fst (main (fun _ => "") "eth" (quotes "ETH" Demo.unquoted)) = [].
Proof.
  apply (key_error_prints_nothing (fun _ => "") "eth"
           (quotes "ETH" Demo.unquoted) _ "quote").
  reflexivity.
Defined.

End Lookup.

(** ** Filtering and sorting commute *)

Module Commute.
Import PySort App.
Local Open Scope string_scope.

Section Generic.
Context {A : Type} (ltb : A -> A -> bool) (P : A -> bool).
Hypothesis asym : forall a b, ltb a b = true -> ltb b a = false.
Hypothesis negtrans :
  forall x y z, ltb y x = false -> ltb z y = false -> ltb z x = false.





End Generic.


End Commute.
